(** * Notion cache, block flattener and page summarizer

    A shallow embedding of [src/notion_api.py] (classes [NotionCache] and
    [NotionManager]) with the properties of its cache, its block
    flattener and its bounded summarizer.

    Python values that travel through [json.load] / [json.dump] are the
    inductive [json]; a Python [str] is a [string] (one [ascii] per
    character, so text is limited to 256 characters and [lower] folds
    the ASCII letters), its [len] a [Z]; a call returns [Ok] or it
    [Raise]s; everything the code reads from or writes to the outside
    (cache files, wall clock, HTTP) lives in the record [World],
    threaded by the monad [M]. A file is known by what [json.load]
    makes of it; directories and I/O errors of the disk are not
    modelled, a write always succeeds. *)

From Stdlib Require Import ZArith Ascii String List Bool Lia Sorted.
From stdpp Require Import base option list gmap strings.
Import ListNotations.

Local Open Scope Z_scope.
Set Warnings "-register-all".
Set Default Proof Using "Type".

(** ** Python values, exceptions and results *)

Module Py.

(** What [json.load] can return. A JSON object keeps its items in
    insertion order, as a Python [dict] does; [None] is [JNull]. A
    float is kept as its IEEE-754 binary64 bit pattern. *)
Inductive json : Type :=
| JNull
| JBool (b : bool)
| JInt (n : Z)
| JFloat (bits : Z)
| JStr (s : string)
| JList (items : list json)
| JDict (items : list (string * json)).

(** The exceptions that the modelled code can let escape. *)
Inductive exn : Type :=
| JSONDecodeError
| AttributeError
| TypeError
| ValueError
| FileNotFoundError
| HTTPError (status : Z)
| RequestException (reason : string).

Inductive result (A : Type) : Type :=
| Ok (a : A)
| Raise (e : exn).
Arguments Ok {A} a.
Arguments Raise {A} e.

Definition bind_result {A B} (r : result A) (k : A -> result B) : result B :=
  match r with
  | Ok a => k a
  | Raise e => Raise e
  end.

(** [bool(v)]: the truth value that [if v:] tests. *)
Definition truthy (v : json) : bool :=
  match v with
  | JNull => false
  | JBool b => b
  | JInt n => negb (n =? 0)
  | JFloat bits => negb (Z.land bits (2 ^ 63 - 1) =? 0)
  | JStr s => negb (String.eqb s EmptyString)
  | JList items => match items with [] => false | _ :: _ => true end
  | JDict items => match items with [] => false | _ :: _ => true end
  end.

(** Lookup in a [dict]. *)
Fixpoint assoc (key : string) (items : list (string * json)) : option json :=
  match items with
  | [] => None
  | (k, v) :: items' => if String.eqb k key then Some v else assoc key items'
  end.

(** [v.get(key, default)]; only a [dict] has the method. *)
Definition get (v : json) (key : string) (default : json) : result json :=
  match v with
  | JDict items =>
      Ok (match assoc key items with Some x => x | None => default end)
  | _ => Raise AttributeError
  end.

(** The items that [for x in v] visits. *)
Definition iter (v : json) : result (list json) :=
  match v with
  | JList items => Ok items
  | JDict items => Ok (List.map (fun kv => JStr (fst kv)) items)
  | JStr s =>
      Ok (List.map (fun c => JStr (String c EmptyString))
            (list_ascii_of_string s))
  | _ => Raise TypeError
  end.

(** [v == s] for a string literal [s]. *)
Definition eq_str (v : json) (s : string) : bool :=
  match v with
  | JStr s' => String.eqb s' s
  | _ => false
  end.

End Py.

Export Py.

(** ** Python strings *)

Module Str.

(** ["\n"] *)
Definition nl : string := String "010"%char EmptyString.

(** [len(s)] *)
Definition len (s : string) : Z := Z.of_nat (String.length s).

(** [sep.join(parts)] *)
Definition join (sep : string) (parts : list string) : string :=
  String.concat sep parts.

(** [s.split(sep)] for a one-character separator: never an empty list,
    [''.split(sep) == ['']]. *)
Fixpoint split (sep : ascii) (s : string) : list string :=
  match s with
  | EmptyString => [EmptyString]
  | String c s' =>
      if Ascii.eqb c sep then EmptyString :: split sep s'
      else match split sep s' with
           | [] => [String c EmptyString]
           | h :: t => String c h :: t
           end
  end.

(** [c.lower()] on the ASCII range; other characters are left alone. *)
Definition lower_char (c : ascii) : ascii :=
  let n := N_of_ascii c in
  if ((65 <=? n) && (n <=? 90))%N then ascii_of_N (n + 32) else c.

(** [s.lower()] *)
Fixpoint lower (s : string) : string :=
  match s with
  | EmptyString => EmptyString
  | String c s' => String (lower_char c) (lower s')
  end.

(** [needle in hay] for two strings: [needle] occurs in [hay] as a
    contiguous, case-sensitive substring. *)
Fixpoint contains (needle hay : string) : bool :=
  String.prefix needle hay ||
  match hay with
  | EmptyString => false
  | String _ hay' => contains needle hay'
  end.

(** Ghost: the character [sep] does not occur in [s]. *)
Fixpoint free_of (sep : ascii) (s : string) : bool :=
  match s with
  | EmptyString => true
  | String c s' => negb (Ascii.eqb c sep) && free_of sep s'
  end.

End Str.

(** ** [datetime]: naive timestamps, ISO text and differences *)

Module Datetime.

Record datetime : Type := mk_datetime {
  year : Z; month : Z; day : Z;
  hour : Z; minute : Z; second : Z; microsecond : Z
}.

Definition is_leap (y : Z) : bool :=
  (y mod 4 =? 0) && (negb (y mod 100 =? 0) || (y mod 400 =? 0)).

Definition days_in_month (y m : Z) : Z :=
  if m =? 2 then (if is_leap y then 29 else 28)
  else if (m =? 4) || (m =? 6) || (m =? 9) || (m =? 11) then 30
  else 31.

Definition days_before_year (y : Z) : Z :=
  let y' := y - 1 in y' * 365 + y' / 4 - y' / 100 + y' / 400.

Definition days_before_month (y m : Z) : Z :=
  List.nth (Z.to_nat m) [0; 0; 31; 59; 90; 120; 151; 181; 212; 243; 273; 304; 334] 0
  + (if (2 <? m) && is_leap y then 1 else 0).

(** [d.toordinal()]: day 1 is 0001-01-01. *)
Definition toordinal (d : datetime) : Z :=
  days_before_year (year d) + days_before_month (year d) (month d) + day d.

(** The field ranges that the [datetime] constructor enforces. *)
Definition valid (d : datetime) : bool :=
  (1 <=? year d) && (year d <=? 9999)
  && (1 <=? month d) && (month d <=? 12)
  && (1 <=? day d) && (day d <=? days_in_month (year d) (month d))
  && (0 <=? hour d) && (hour d <=? 23)
  && (0 <=? minute d) && (minute d <=? 59)
  && (0 <=? second d) && (second d <=? 59)
  && (0 <=? microsecond d) && (microsecond d <=? 999999).

(** Microseconds since the start of day 0; [a - b] as a [timedelta]
    is [to_us a - to_us b] microseconds. *)
Definition to_us (d : datetime) : Z :=
  (((toordinal d * 24 + hour d) * 60 + minute d) * 60 + second d) * 1000000
  + microsecond d.

(** [timedelta(hours=h)] in microseconds. *)
Definition hours (h : Z) : Z := h * 3600 * 1000000.

Definition digit_char (d : Z) : ascii := ascii_of_N (48 + Z.to_N d).

(** ["%0<width>d" % n] put in front of [tail]. *)
Fixpoint pad (width : nat) (n : Z) (tail : string) : string :=
  match width with
  | O => tail
  | S w => pad w (n / 10) (String (digit_char (n mod 10)) tail)
  end.

(** [d.isoformat()]: [YYYY-MM-DDTHH:MM:SS], followed by [.ffffff]
    when the microseconds are not zero. *)
Definition isoformat (d : datetime) : string :=
  pad 4 (year d) (String "-" (pad 2 (month d) (String "-" (pad 2 (day d)
    (String "T" (pad 2 (hour d) (String ":" (pad 2 (minute d) (String ":"
      (pad 2 (second d)
         (if microsecond d =? 0 then EmptyString
          else String "." (pad 6 (microsecond d) EmptyString)))))))))))).

Definition digit_val (c : ascii) : option Z :=
  let n := N_of_ascii c in
  if ((48 <=? n) && (n <=? 57))%N then Some (Z.of_N n - 48) else None.

Fixpoint take_digits (width : nat) (acc : Z) (s : string)
    : option (Z * string) :=
  match width with
  | O => Some (acc, s)
  | S w =>
      match s with
      | String c s' =>
          match digit_val c with
          | Some d => take_digits w (acc * 10 + d) s'
          | None => None
          end
      | EmptyString => None
      end
  end.

Definition expect (c : ascii) (s : string) : option string :=
  match s with
  | String c' s' => if Ascii.eqb c' c then Some s' else None
  | EmptyString => None
  end.

(** The fields of [YYYY-MM-DD], [YYYY-MM-DD?HH:MM:SS] and
    [YYYY-MM-DD?HH:MM:SS.ffffff], where [?] is any one character. *)
Definition parse_fields (s : string) : option datetime :=
  '(y, s) ← take_digits 4 0 s;
  s ← expect "-" s;
  '(m, s) ← take_digits 2 0 s;
  s ← expect "-" s;
  '(d, s) ← take_digits 2 0 s;
  match s with
  | EmptyString => Some (mk_datetime y m d 0 0 0 0)
  | String _ s =>
      '(h, s) ← take_digits 2 0 s;
      s ← expect ":" s;
      '(mi, s) ← take_digits 2 0 s;
      s ← expect ":" s;
      '(sec, s) ← take_digits 2 0 s;
      match s with
      | EmptyString => Some (mk_datetime y m d h mi sec 0)
      | String _ _ =>
          s ← expect "." s;
          '(us, s) ← take_digits 6 0 s;
          match s with
          | EmptyString => Some (mk_datetime y m d h mi sec us)
          | String _ _ => None
          end
      end
  end.

(** [datetime.fromisoformat(v)] on the formats that [isoformat] writes
    for a naive timestamp (the date alone included). A value that is
    not a [str] is a [TypeError]; fields out of range are a
    [ValueError]. Text in another layout is rejected here as well;
    recent interpreters read more layouts than these, and nothing
    below depends on how such text is treated. *)
Definition fromisoformat (v : json) : result datetime :=
  match v with
  | JStr s =>
      match parse_fields s with
      | Some d => if valid d then Ok d else Raise ValueError
      | None => Raise ValueError
      end
  | _ => Raise TypeError
  end.

End Datetime.

Export Datetime.

(** ** The flattener: [extract_plain_text], [simplify_block_content]
       and the loop of [get_page_content_simplified] *)

Module Flatten.

(** The dict that [simplify_block_content] builds: ['type'] and
    ['content'] always, ['checked'] and ['language'] only where the
    code sets them. *)
Record simplified : Type := mk_simplified {
  block_type : json;
  content : string;
  checked : option json;
  language : option json
}.

(** [[f(x) for x in xs]], stopping at the first exception. *)
Fixpoint map_result {A B} (f : A -> result B) (xs : list A) : result (list B) :=
  match xs with
  | [] => Ok []
  | x :: xs' =>
      bind_result (f x) (fun y =>
      bind_result (map_result f xs') (fun ys => Ok (y :: ys)))
  end.

(** ["".join(parts)]: every part has to be a [str]. *)
Fixpoint join_plain (parts : list json) : result string :=
  match parts with
  | [] => Ok EmptyString
  | JStr s :: parts' => bind_result (join_plain parts') (fun t => Ok (s +:+ t))
  | _ :: _ => Raise TypeError
  end.

(** Lines 209-212. *)
Definition extract_plain_text (rich_text : json) : result string :=
  if negb (truthy rich_text) then Ok EmptyString
  else
    bind_result (Py.iter rich_text) (fun texts =>
    bind_result (map_result (fun text => Py.get text "plain_text" (JStr "")) texts)
      join_plain).

(** [extract_plain_text(block.get(kind, {}).get('rich_text', []))] *)
Definition rich_text_of (block : json) (kind : string) : result string :=
  bind_result (Py.get block kind (JDict [])) (fun inner =>
  bind_result (Py.get inner "rich_text" (JList [])) extract_plain_text).

(** [block.get(kind, {}).get(field, default)] *)
Definition extra_of (block : json) (kind field : string) (default : json)
    : result json :=
  bind_result (Py.get block kind (JDict [])) (fun inner =>
  Py.get inner field default).

(** The kinds whose branch only fills ['content']. *)
Definition plain_kinds : list string :=
  ["paragraph"; "heading_1"; "heading_2"; "heading_3";
   "bulleted_list_item"; "numbered_list_item"].

(** Lines 223-250. *)
Definition simplify_block_content (block : json) : result simplified :=
  bind_result (Py.get block "type" JNull) (fun block_type =>
  let text_only kind :=
    bind_result (rich_text_of block kind) (fun c =>
    Ok (mk_simplified block_type c None None)) in
  if eq_str block_type "paragraph" then text_only "paragraph"
  else if eq_str block_type "heading_1" then text_only "heading_1"
  else if eq_str block_type "heading_2" then text_only "heading_2"
  else if eq_str block_type "heading_3" then text_only "heading_3"
  else if eq_str block_type "bulleted_list_item" then text_only "bulleted_list_item"
  else if eq_str block_type "numbered_list_item" then text_only "numbered_list_item"
  else if eq_str block_type "to_do" then
    bind_result (rich_text_of block "to_do") (fun c =>
    bind_result (extra_of block "to_do" "checked" (JBool false)) (fun chk =>
    Ok (mk_simplified block_type c (Some chk) None)))
  else if eq_str block_type "toggle" then text_only "toggle"
  else if eq_str block_type "code" then
    bind_result (rich_text_of block "code") (fun c =>
    bind_result (extra_of block "code" "language" (JStr "")) (fun lang =>
    Ok (mk_simplified block_type c None (Some lang))))
  else Ok (mk_simplified block_type EmptyString None None)).

(** Lines 277-282: [rest] is what [enumerate(blocks)] still has to
    yield, [i] its index, [acc] is [simplified_blocks]. *)
Fixpoint simplify_loop (i : Z) (rest : list json) (max_blocks : Z)
    (acc : list simplified) : result (list simplified) :=
  match rest with
  | [] => Ok acc
  | block :: rest' =>
      if i >=? max_blocks then Ok acc (* break *)
      else
        bind_result (simplify_block_content block) (fun s =>
        simplify_loop (i + 1) rest' max_blocks (acc ++ [s]))
  end.

Definition simplify_blocks (blocks : json) (max_blocks : Z)
    : result (list simplified) :=
  bind_result (Py.iter blocks) (fun items =>
  simplify_loop 0 items max_blocks []).

(** The default of the parameter [max_blocks]. *)
Definition default_max_blocks : Z := 50.

(** The kinds that [simplify_block_content] has a branch for. *)
Definition known_kinds : list string :=
  ["paragraph"; "heading_1"; "heading_2"; "heading_3";
   "bulleted_list_item"; "numbered_list_item"; "to_do"; "toggle"; "code"].

Definition known_kind (block_type : json) : bool :=
  existsb (eq_str block_type) known_kinds.

(** Ghost: the shape of a block as the service delivers it. A
    rich-text span is a dict whose ['plain_text'], if present, is a
    [str]; a rich-text value is falsy or a list of spans; the body
    stored under the block's own kind, if present, is a dict whose
    ['rich_text'], if present, is a rich-text value. *)
Definition span_ok (v : json) : bool :=
  match v with
  | JDict items =>
      match assoc "plain_text" items with
      | None | Some (JStr _) => true
      | Some _ => false
      end
  | _ => false
  end.

Definition rich_text_ok (v : json) : bool :=
  negb (truthy v)
  || match v with
     | JList spans => forallb span_ok spans
     | _ => false
     end.

Definition body_ok (items : list (string * json)) (kind : string) : bool :=
  match assoc kind items with
  | None => true
  | Some (JDict inner) =>
      match assoc "rich_text" inner with
      | None => true
      | Some v => rich_text_ok v
      end
  | Some _ => false
  end.

Definition block_ok (block : json) : bool :=
  match block with
  | JDict items =>
      let block_type :=
        match assoc "type" items with Some t => t | None => JNull end in
      forallb (fun kind => implb (eq_str block_type kind) (body_ok items kind))
        known_kinds
  | _ => false
  end.

End Flatten.

Export Flatten.

(** ** The summarizer, lines 306-341 of [generate_page_summary] *)

Module Summary.

(** Line 324. *)
Definition keywords : list string :=
  ["important"; "key"; "main"; "critical"; "essential"; "conclusion"].

(** Line 330: [any(keyword in paragraph.lower() for keyword in keywords)]. *)
Definition has_keyword (paragraph : string) : bool :=
  existsb (fun keyword => Str.contains keyword (Str.lower paragraph)) keywords.

(** [summary += "\n" + paragraph] *)
Definition add_paragraph (summary paragraph : string) : string :=
  summary +:+ Str.nl +:+ paragraph.

(** Lines 325-332, the loop over [paragraphs[1:]]. *)
Fixpoint keyword_pass (rest : list string) (max_length : Z)
    (summary : string) : string :=
  match rest with
  | [] => summary
  | paragraph :: rest' =>
      if Str.len summary >=? max_length then summary (* break *)
      else if has_keyword paragraph
              && (Str.len summary + Str.len paragraph + 1 <=? max_length)
      then keyword_pass rest' max_length (add_paragraph summary paragraph)
      else keyword_pass rest' max_length summary
  end.

(** Lines 335-339, the [while] loop; [rest] is [paragraphs[i:]]. *)
Fixpoint second_pass (rest : list string) (max_length : Z)
    (summary : string) : string :=
  match rest with
  | [] => summary
  | paragraph :: rest' =>
      if Str.len summary + Str.len paragraph + 1 <=? max_length
      then second_pass rest' max_length
             (if negb (Str.contains paragraph summary)
              then add_paragraph summary paragraph else summary)
      else summary
  end.

(** Lines 307-310: the truthy [content] of every simplified block. *)
Definition text_blocks_of (blocks : list simplified) : list string :=
  List.filter (fun c => negb (String.eqb c EmptyString))
    (List.map content blocks).

(** Line 320. *)
Definition paragraphs_of (full_text : string) : list string :=
  Str.split "010"%char full_text.

(** Line 313. *)
Definition full_text_of (blocks : list simplified) : string :=
  Str.join Str.nl (text_blocks_of blocks).

(** Ghost: the paragraphs that [keyword_pass] appends, in order. *)
Fixpoint keyword_log (rest : list string) (max_length : Z)
    (summary : string) : list string :=
  match rest with
  | [] => []
  | paragraph :: rest' =>
      if Str.len summary >=? max_length then []
      else if has_keyword paragraph
              && (Str.len summary + Str.len paragraph + 1 <=? max_length)
      then paragraph
           :: keyword_log rest' max_length (add_paragraph summary paragraph)
      else keyword_log rest' max_length summary
  end.

(** Ghost: the paragraphs that [second_pass] appends, in order. *)
Fixpoint second_log (rest : list string) (max_length : Z)
    (summary : string) : list string :=
  match rest with
  | [] => []
  | paragraph :: rest' =>
      if Str.len summary + Str.len paragraph + 1 <=? max_length
      then if negb (Str.contains paragraph summary)
           then paragraph
                :: second_log rest' max_length (add_paragraph summary paragraph)
           else second_log rest' max_length summary
      else []
  end.

(** Lines 306-341, from the simplified blocks of the page. *)
Definition summarize (blocks : list simplified) (max_length : Z) : string :=
  let full_text := full_text_of blocks in
  if Str.len full_text <=? max_length then full_text
  else
    let paragraphs := paragraphs_of full_text in
    let summary := match paragraphs with [] => EmptyString | p :: _ => p end in
    let summary := keyword_pass (List.tl paragraphs) max_length summary in
    second_pass (List.skipn 1 paragraphs) max_length summary.

End Summary.

(** ** The outside world: cache files, wall clock, HTTP *)

Module Env.

(** What [json.load] / [response.json()] finds: text that does not
    parse, or a document. [json.dump] always leaves a document. *)
Inductive file : Type :=
| Unparsable (raw : string)
| Document (j : json).

(** What [requests.get] does: it raises, or hands back a response. *)
Inductive http_outcome : Type :=
| Failed (e : exn)
| Response (status_code : Z) (body : file).

(** [files] maps a path to the file stored there; [clock n] is what
    the [n]-th call of [datetime.now()] reads and [ticks] counts the
    calls made so far; [http n url] is the outcome of the [n]-th
    request when it goes to [url], and [http_log] lists the URLs
    requested so far, oldest first.

    A path is taken as it is written: the store does not normalise
    it and knows no links, so two different texts are two files here
    even where the disk would resolve them to one (["d/./k.json"] and
    ["d/k.json"]). What is said about two different keys therefore
    speaks of keys that are plain file names. *)
Record World : Type := mk_World {
  files : gmap string file;
  clock : nat -> datetime;
  ticks : nat;
  http : nat -> string -> http_outcome;
  http_log : list string
}.

(** A computation that may read and change the world and may raise.
    An exception keeps the changes made before it. *)
Definition M (A : Type) : Type := World -> result A * World.

#[global] Instance M_ret : MRet M := fun A a w => (Ok a, w).

#[global] Instance M_bind : MBind M := fun A B k m w =>
  match m w with
  | (Ok a, w') => k a w'
  | (Raise e, w') => (Raise e, w')
  end.

(** A pure step that may raise. *)
Definition lift {A} (r : result A) : M A := fun w => (r, w).

(** [os.path.join(a, b)] *)
Definition starts_with_sep (s : string) : bool :=
  match s with
  | String c _ => Ascii.eqb c "/"
  | EmptyString => false
  end.

Fixpoint ends_with_sep (s : string) : bool :=
  match s with
  | EmptyString => false
  | String c EmptyString => Ascii.eqb c "/"
  | String _ s' => ends_with_sep s'
  end.

Definition os_path_join (a b : string) : string :=
  if starts_with_sep b then b
  else if String.eqb a EmptyString || ends_with_sep a then a +:+ b
  else a +:+ "/" +:+ b.

(** [os.path.exists(path)] *)
Definition os_path_exists (path : string) : M bool :=
  fun w => (Ok (bool_decide (is_Some (files w !! path))), w).

(** [with open(path, 'r') as f: json.load(f)] on an existing file. *)
Definition json_load (path : string) : M json :=
  fun w =>
    match files w !! path with
    | Some (Document j) => (Ok j, w)
    | Some (Unparsable _) => (Raise JSONDecodeError, w)
    | None => (Raise FileNotFoundError, w)
    end.

(** The world after one more reading of the clock. *)
Definition tick (w : World) : World :=
  mk_World (files w) (clock w) (S (ticks w)) (http w) (http_log w).

(** The world after [path] was written. *)
Definition write_file (path : string) (f : file) (w : World) : World :=
  mk_World (<[path := f]> (files w)) (clock w) (ticks w) (http w) (http_log w).

(** The world after one more request. *)
Definition log_request (url : string) (w : World) : World :=
  mk_World (files w) (clock w) (ticks w) (http w) (http_log w ++ [url]).

(** [with open(path, 'w') as f: json.dump(data, f)] *)
Definition json_dump (path : string) (data : json) : M unit :=
  fun w => (Ok tt, write_file path (Document data) w).

(** [datetime.now()] *)
Definition datetime_now : M datetime :=
  fun w => (Ok (clock w (ticks w)), tick w).

(** [requests.get(url, headers=...)] *)
Definition requests_get (url : string) : M (Z * file) :=
  fun w =>
    match http w (List.length (http_log w)) url with
    | Failed e => (Raise e, log_request url w)
    | Response status_code body => (Ok (status_code, body), log_request url w)
    end.

(** [response.raise_for_status()] *)
Definition raise_for_status (response : Z * file) : M unit :=
  let status_code := fst response in
  if (400 <=? status_code) && (status_code <? 600)
  then lift (Raise (HTTPError status_code))
  else mret tt.

(** [response.json()] *)
Definition response_json (response : Z * file) : M json :=
  match snd response with
  | Document j => mret j
  | Unparsable _ => lift (Raise JSONDecodeError)
  end.

End Env.

Export Env.

(** ** class [NotionCache] *)

Module NotionCache.

Record t : Type := mk { cache_dir : string }.

(** [NotionCache()] with the default directory. *)
Definition default : t := mk ".notion_cache".

(** Line 46. *)
Definition get_cache_path (self : t) (page_id : string) : string :=
  os_path_join (cache_dir self) (page_id +:+ ".json").

(** Lines 57-66. *)
Definition get_cached_page (self : t) (page_id : string) : M json :=
  let cache_path := get_cache_path self page_id in
  found ← os_path_exists cache_path;
  if (found : bool) then
    cached_data ← json_load cache_path;
    stamp ← lift (Py.get cached_data "cached_at" (JStr "2000-01-01"));
    last_updated ← lift (fromisoformat stamp);
    now ← datetime_now;
    if to_us now - to_us last_updated <? hours 24
    then lift (Py.get cached_data "content" JNull)
    else mret JNull
  else mret JNull.

(** The dict of lines 76-79. *)
Definition cache_data (content : json) (now : datetime) : json :=
  JDict [("content", content); ("cached_at", JStr (isoformat now))].

(** Lines 75-81. *)
Definition update_cache (self : t) (page_id : string) (content : json)
    : M unit :=
  let cache_path := get_cache_path self page_id in
  now ← datetime_now;
  json_dump cache_path (cache_data content now).

(** Lines 93-99. *)
Definition get_page_content (self : t) (page_id : string)
    (force_refresh : bool) : M json :=
  if negb force_refresh then
    cached_content ← get_cached_page self page_id;
    if truthy cached_content then mret cached_content else mret JNull
  else mret JNull.

End NotionCache.

(** ** class [NotionManager] *)

Module NotionManager.

Record t : Type := mk {
  token : string;
  base_url : string;
  cache : NotionCache.t
}.

(** [NotionManager(token)], lines 111-122. *)
Definition init (token : string) : t :=
  mk token "https://api.notion.com/v1" NotionCache.default.

Definition page_url (self : t) (page_id : string) : string :=
  base_url self +:+ "/pages/" +:+ page_id.

Definition children_url (self : t) (block_id : string) : string :=
  base_url self +:+ "/blocks/" +:+ block_id +:+ "/children".

(** Lines 140-144: the fetch of a page. *)
Definition fetch_page (self : t) (page_id : string) : M json :=
  response ← requests_get (page_url self page_id);
  _ ← raise_for_status response;
  response_json response.

(** Lines 134-149. *)
Definition get_page (self : t) (page_id : string) (force_refresh : bool)
    : M json :=
  cached_page ← NotionCache.get_page_content (cache self) page_id force_refresh;
  if truthy cached_page && negb force_refresh then mret cached_page
  else
    page_data ← fetch_page self page_id;
    _ ← NotionCache.update_cache (cache self) page_id page_data;
    mret page_data.

(** Lines 168-172: the fetch of the children of a block. *)
Definition fetch_block_children (self : t) (block_id : string) : M json :=
  response ← requests_get (children_url self block_id);
  _ ← raise_for_status response;
  body ← response_json response;
  lift (Py.get body "results" (JList [])).

(** Lines 161-177. *)
Definition get_block_children (self : t) (block_id : string)
    (force_refresh : bool) : M json :=
  let cache_key := block_id +:+ "_children" in
  cached_blocks ← NotionCache.get_page_content (cache self) cache_key force_refresh;
  if truthy cached_blocks && negb force_refresh then mret cached_blocks
  else
    blocks_data ← fetch_block_children self block_id;
    _ ← NotionCache.update_cache (cache self) cache_key blocks_data;
    mret blocks_data.

(** [properties.values()] *)
Definition dict_values (v : json) : result (list json) :=
  match v with
  | JDict items => Ok (List.map snd items)
  | _ => Raise AttributeError
  end.

(** Lines 266-271. *)
Fixpoint find_title (props : list json) : result string :=
  match props with
  | [] => Ok EmptyString
  | prop :: props' =>
      bind_result (Py.get prop "type" JNull) (fun kind =>
      if eq_str kind "title"
      then bind_result (Py.get prop "title" (JList [])) extract_plain_text
      else find_title props')
  end.

(** The dict of lines 284-291. *)
Record page_content : Type := mk_page_content {
  id : string;
  title : string;
  url : json;
  last_edited : json;
  created : json;
  blocks : list simplified
}.

(** Lines 262-291. *)
Definition get_page_content_simplified (self : t) (page_id : string)
    (max_blocks : Z) : M page_content :=
  page ← get_page self page_id false;
  properties ← lift (Py.get page "properties" (JDict []));
  props ← lift (dict_values properties);
  title ← lift (find_title props);
  blocks ← get_block_children self page_id false;
  simplified_blocks ← lift (simplify_blocks blocks max_blocks);
  url ← lift (Py.get page "url" (JStr ""));
  last_edited ← lift (Py.get page "last_edited_time" (JStr ""));
  created ← lift (Py.get page "created_time" (JStr ""));
  mret (mk_page_content page_id title url last_edited created simplified_blocks).

(** Lines 303-341. *)
Definition generate_page_summary (self : t) (page_id : string)
    (max_length : Z) : M string :=
  content ← get_page_content_simplified self page_id default_max_blocks;
  mret (Summary.summarize (blocks content) max_length).

End NotionManager.

(** ** The short-document path in the words of the specification

    Written from the specification and not from the code, to be
    compared with [Summary.summarize]: "extract the content field of
    every flattened block with non-empty content, preserving order,
    into a sequence of text paragraphs", "join all of P with newline
    separators into fullText". *)

Module SpecText.

(** The contents that are not empty, in the order of the blocks. *)
Fixpoint paragraphs (blocks : list simplified) : list string :=
  match blocks with
  | [] => []
  | block :: blocks' =>
      match content block with
      | EmptyString => paragraphs blocks'
      | String c text => String c text :: paragraphs blocks'
      end
  end.

(** The paragraphs with one newline between neighbours. *)
Fixpoint joined (P : list string) : string :=
  match P with
  | [] => EmptyString
  | p :: P' =>
      match P' with
      | [] => p
      | _ :: _ => p +:+ String "010"%char (joined P')
      end
  end.

Definition full_text (blocks : list simplified) : string :=
  joined (paragraphs blocks).

End SpecText.

(** ** Sample inputs *)

(** A simplified paragraph with the given text. *)
Definition para (text : string) : simplified :=
  mk_simplified (JStr "paragraph") text None None.

(** The paragraph block [{"type": "paragraph", "paragraph":
    {"rich_text": [{"plain_text": text}]}}]. *)
Definition paragraph_block (text : string) : json :=
  JDict [("type", JStr "paragraph");
         ("paragraph",
          JDict [("rich_text", JList [JDict [("plain_text", JStr text)]])])].

Module Sample.

(** A clock that reads 00:00, 01:00, ... on 2024-05-17. *)
Definition hourly (n : nat) : datetime :=
  mk_datetime 2024 5 17 (Z.min 23 (Z.of_nat n)) 0 0 0.

(** A clock that reads noon of 2024-05-01, 2024-05-02, ... *)
Definition daily (n : nat) : datetime :=
  mk_datetime 2024 5 (1 + Z.of_nat n mod 28) 12 0 0 0.

Definition offline : nat -> string -> http_outcome :=
  fun _ _ => Failed (RequestException "connection refused").

(** Every request is answered with [body]. *)
Definition serving (body : json) : nat -> string -> http_outcome :=
  fun _ _ => Response 200 (Document body).

Definition manager : NotionManager.t := NotionManager.init "secret".

Definition page_path : string :=
  NotionCache.get_cache_path NotionCache.default "page".

Definition children_path : string :=
  NotionCache.get_cache_path NotionCache.default "page_children".

(** No cache file at all. *)
Definition empty_world : World := mk_World ∅ hourly 0 offline [].

(** The cache file of ["page"] holds text that is not JSON. *)
Definition garbled_world : World :=
  mk_World {[ page_path := Unparsable "{not json" ]} hourly 0 offline [].

(** The cache file of ["page"] was written at noon of 2024-05-01 and
    the next reading of the clock is noon of 2024-05-02. *)
Definition day_old_world : World :=
  mk_World
    {[ page_path := Document (NotionCache.cache_data (JStr "v") (daily 0)) ]}
    daily 1 offline [].

(** The cache file of ["page"] has a content and no timestamp. *)
Definition unstamped_world : World :=
  mk_World {[ page_path := Document (JDict [("content", JStr "v")]) ]}
    hourly 0 offline [].

(** The cache file of ["page"] was written at 00:00, the next
    reading of the clock is 01:00, and the service answers with a
    newer page. *)
Definition fresh_page_world : World :=
  mk_World
    {[ page_path :=
         Document (NotionCache.cache_data (JDict [("id", JStr "old")]) (hourly 0)) ]}
    hourly 1 (serving (JDict [("id", JStr "new")])) [].

(** The cached children of ["page"] are the empty list, written at
    00:00; the next reading of the clock is 01:00. *)
Definition no_children_world : World :=
  mk_World
    {[ children_path := Document (NotionCache.cache_data (JList []) (hourly 0)) ]}
    hourly 1 (serving (JDict [("results", JList [paragraph_block "new"])])) [].

End Sample.

(** ** Further definitions *)

(** The cached children of ["page"] are one paragraph, written at
    00:00; the next reading of the clock is 01:00 and the service is
    out of reach. *)
Definition cached_children_world : World :=
  mk_World
    {[ Sample.children_path :=
         Document (NotionCache.cache_data (JList [paragraph_block "kept"])
                     (Sample.hourly 0)) ]}
    Sample.hourly 1 Sample.offline [].

(** Whether a value is a [dict]. *)
Definition is_dict (v : json) : bool :=
  match v with
  | JDict _ => true
  | _ => false
  end.

(** The text that a span of the delivered shape contributes:
    [span.get('plain_text', '')]. *)
Definition span_text (span : json) : string :=
  match Py.get span "plain_text" (JStr "") with
  | Ok (JStr s) => s
  | _ => ""
  end.

(** Page ["page"] and its children are both cached, written at 00:00;
    the children are a paragraph followed by a null that the cap of
    one block keeps out of sight; the service is out of reach. *)
Definition cached_page_and_children : World :=
  mk_World
    {[ Sample.page_path :=
         Document (NotionCache.cache_data (JDict [("id", JStr "page")])
                     (Sample.hourly 0));
       Sample.children_path :=
         Document (NotionCache.cache_data (JList [paragraph_block "kept"; JNull])
                     (Sample.hourly 0)) ]}
    Sample.hourly 1 Sample.offline [].

(** A page as the search returns it, reduced to id and timestamp. *)
Definition stamped_page (page_id stamp : string) : json :=
  JDict [("id", JStr page_id); ("last_edited_time", JStr stamp)].

(** Five pages: two share a timestamp, one is older than the cutoff
    used with them, one has no timestamp. *)
Definition search_result : list json :=
  [stamped_page "a" "2024-05-12T08:00:00.000Z";
   stamped_page "b" "2024-05-01T08:00:00.000Z";
   stamped_page "c" "2024-05-14T09:30:00.000Z";
   stamped_page "d" "2024-05-12T08:00:00.000Z";
   JDict [("id", JStr "e")]].

(** Ghost: [w'] differs from [w] by requests to some of [urls], in
    that order, and by writes to files among [paths]. *)
Definition touched (urls paths : list string) (w w' : World) : Prop :=
  (exists sent, http_log w' = http_log w ++ sent /\ sublist sent urls)
  /\ forall path, ~ In path paths -> files w' !! path = files w !! path.

(** ** [get_recently_updated_pages], lines 405-426

    The filter and the sort of the method, from the pages that
    [search_pages] returned and the cutoff text
    [(datetime.now() - timedelta(days=days)).isoformat()] on. *)

Module RecentPages.

(** The dict of lines 416-421. *)
Record recent_page : Type := mk_recent_page {
  id : json;
  title : string;
  url : json;
  last_edited : string
}.

(** [a >= b] on two [str]: characters are compared from the left and
    a proper prefix is the smaller text. *)
Definition str_ge (a b : string) : bool := String.leb b a.

(** [a < b] on two [str]. *)
Definition str_lt (a b : string) : bool := String.ltb a b.

(** Lines 406-421 for one page: the entry to append, if any.
    Comparing anything but a [str] with the cutoff is a
    [TypeError]. *)
Definition recent_entry (cutoff_date : string) (page : json)
    : result (option recent_page) :=
  bind_result (Py.get page "last_edited_time" (JStr "")) (fun last_edited =>
  match last_edited with
  | JStr stamp =>
      if str_ge stamp cutoff_date then
        bind_result (Py.get page "properties" (JDict [])) (fun properties =>
        bind_result (NotionManager.dict_values properties) (fun props =>
        bind_result (NotionManager.find_title props) (fun title =>
        bind_result (Py.get page "id" JNull) (fun page_id =>
        bind_result (Py.get page "url" (JStr "")) (fun url =>
        Ok (Some (mk_recent_page page_id title url stamp)))))))
      else Ok None
  | _ => Raise TypeError
  end).

(** Lines 405-421: [rest] is what is left of [pages], [acc] is
    [recent_pages]. *)
Fixpoint recent_loop (rest : list json) (cutoff_date : string)
    (acc : list recent_page) : result (list recent_page) :=
  match rest with
  | [] => Ok acc
  | page :: rest' =>
      bind_result (recent_entry cutoff_date page) (fun entry =>
      recent_loop rest' cutoff_date
        (match entry with Some e => acc ++ [e] | None => acc end))
  end.

(** [list.sort(key=..., reverse=True)] is stable: entries with equal
    keys keep their order. [insert_desc x sorted] puts [x], which
    comes before the entries of [sorted] in the list being sorted, in
    front of the first entry whose key is not greater. *)
Fixpoint insert_desc (x : recent_page) (sorted : list recent_page)
    : list recent_page :=
  match sorted with
  | [] => [x]
  | y :: sorted' =>
      if str_lt (last_edited x) (last_edited y)
      then y :: insert_desc x sorted'
      else x :: y :: sorted'
  end.

(** Line 424. *)
Definition sort_desc (entries : list recent_page) : list recent_page :=
  List.fold_right insert_desc [] entries.

(** Lines 405-426. *)
Definition recent_pages_from (pages : json) (cutoff_date : string)
    : result (list recent_page) :=
  bind_result (Py.iter pages) (fun items =>
  bind_result (recent_loop items cutoff_date []) (fun recent_pages =>
  Ok (sort_desc recent_pages))).

(** Ghost: the timestamp that the filter sees on a page, [''] when the
    page has none. *)
Definition page_stamp (page : json) : string :=
  match Py.get page "last_edited_time" (JStr "") with
  | Ok (JStr stamp) => stamp
  | _ => ""
  end.

(** Ghost: the id that an entry takes from a page. *)
Definition page_id (page : json) : json :=
  match Py.get page "id" JNull with
  | Ok v => v
  | Raise _ => JNull
  end.

(** Ghost: the page passes the filter. *)
Definition qualifies (cutoff_date : string) (page : json) : bool :=
  str_ge (page_stamp page) cutoff_date.

(** Ghost: newest first. *)
Definition newest_first (a b : recent_page) : Prop :=
  str_ge (last_edited a) (last_edited b) = true.

End RecentPages.

(** * Properties *)

(** ** Runs of the model *)

Example summarize_hello :
  Summary.summarize [para "Hello"; para "World"] 500
  = "Hello" +:+ Str.nl +:+ "World".
Proof. reflexivity. Qed.

Example summarize_key_finding :
  Summary.summarize
    [para "Intro"; para "Detail one"; para "This is a key finding";
     para "Detail two"] 30
  = "Intro" +:+ Str.nl +:+ "This is a key finding".
Proof. reflexivity. Qed.

Example iso_example :
  isoformat (mk_datetime 2024 3 9 7 5 0 1234) = "2024-03-09T07:05:00.001234".
Proof. reflexivity. Qed.

Example iso_parse_example :
  fromisoformat (JStr "2024-03-09T07:05:00.001234")
  = Ok (mk_datetime 2024 3 9 7 5 0 1234).
Proof. reflexivity. Qed.

Example default_stamp : fromisoformat (JStr "2000-01-01") = Ok (mk_datetime 2000 1 1 0 0 0 0).
Proof. reflexivity. Qed.

Example ordinal_example : toordinal (mk_datetime 2000 1 1 0 0 0 0) = 730120.
Proof. reflexivity. Qed.

(** ** Strings *)

Section StringFacts.

Lemma app_empty_r (s : string) : s +:+ "" = s.
Proof. induction s as [|c s IH]; [reflexivity|]. unfold String.app in *. simpl. by rewrite IH. Qed.

Lemma app_cons (c : ascii) (s t : string) : String c s +:+ t = String c (s +:+ t).
Proof. reflexivity. Qed.

Lemma app_assoc' (s t u : string) : (s +:+ t) +:+ u = s +:+ t +:+ u.
Proof. induction s as [|c s IH]; [reflexivity|]. rewrite !app_cons. by rewrite IH. Qed.

Lemma len_app (s t : string) : Str.len (s +:+ t) = Str.len s + Str.len t.
Proof.
  unfold Str.len. induction s as [|c s IH]; [reflexivity|].
  rewrite app_cons. cbn [String.length]. lia.
Qed.

Lemma len_nonneg (s : string) : 0 <= Str.len s.
Proof. unfold Str.len. lia. Qed.

Lemma len_nl : Str.len Str.nl = 1.
Proof. reflexivity. Qed.

Lemma len_add_paragraph (s p : string) :
  Str.len (Summary.add_paragraph s p) = Str.len s + Str.len p + 1.
Proof. unfold Summary.add_paragraph. rewrite !len_app, len_nl. lia. Qed.

Lemma prefix_app (n b : string) : String.prefix n (n +:+ b) = true.
Proof.
  induction n as [|c n IH]; [by destruct b|].
  rewrite app_cons. cbn [String.prefix].
  destruct (ascii_dec c c); [exact IH|congruence].
Qed.


Lemma contains_intro (p a b : string) : Str.contains p (a +:+ p +:+ b) = true.
Proof.
  induction a as [|c a IH].
  - change ("" +:+ p +:+ b) with (p +:+ b).
    destruct (p +:+ b) eqn:E; cbn [Str.contains]; rewrite <- E, prefix_app; done.
  - rewrite app_cons. cbn [Str.contains]. rewrite IH. apply orb_true_r.
Qed.







End StringFacts.

(** ** [split] and [join] *)

Section SplitJoin.

Variable sep : ascii.

Lemma split_nonempty (s : string) : Str.split sep s <> [].
Proof.
  destruct s as [|c s]; cbn [Str.split]; [done|].
  destruct (Ascii.eqb c sep); [done|]. by destruct (Str.split sep s).
Qed.

Lemma split_free (s : string) :
  Forall (fun x => Str.free_of sep x = true) (Str.split sep s).
Proof.
  induction s as [|c s IH]; cbn [Str.split].
  - by repeat constructor.
  - destruct (Ascii.eqb c sep) eqn:E.
    + by constructor.
    + destruct (Str.split sep s) as [|h t] eqn:Es;
        [by apply split_nonempty in Es|].
      inversion IH as [|? ? Hh Ht]; subst. constructor; [|done].
      cbn [Str.free_of]. by rewrite E, Hh.
Qed.

Lemma split_free_id (x : string) :
  Str.free_of sep x = true -> Str.split sep x = [x].
Proof.
  induction x as [|c x IH]; cbn [Str.split Str.free_of]; [done|].
  intros [Hc Hx]%andb_true_iff. apply negb_true_iff in Hc.
  by rewrite Hc, (IH Hx).
Qed.

Lemma split_app_free (x t : string) :
  Str.free_of sep x = true ->
  Str.split sep (x +:+ String sep t) = x :: Str.split sep t.
Proof.
  induction x as [|c x IH]; cbn [Str.free_of]; intros H.
  - change ("" +:+ String sep t) with (String sep t).
    cbn [Str.split]. by rewrite Ascii.eqb_refl.
  - apply andb_true_iff in H as [Hc Hx]. apply negb_true_iff in Hc.
    rewrite app_cons. cbn [Str.split]. by rewrite Hc, (IH Hx).
Qed.

Lemma split_join (l : list string) :
  l <> [] ->
  Forall (fun x => Str.free_of sep x = true) l ->
  Str.split sep (Str.join (String sep "") l) = l.
Proof.
  unfold Str.join. induction l as [|x l IH]; [done|]. intros _ Hall.
  inversion Hall as [|? ? Hx Hl]; subst.
  destruct l as [|y l]; cbn [String.concat].
  - by apply split_free_id.
  - change (String.concat (String sep "") (y :: l))
      with (Str.join (String sep "") (y :: l)).
    change (String.append x (String.append (String sep "") ?t))
      with (x +:+ String sep t).
    rewrite (split_app_free _ _ Hx). f_equal. by apply IH.
Qed.

End SplitJoin.

(** ** The two passes of the summarizer *)

Section Passes.

Import Summary.

Variable max_length : Z.

Lemma keyword_pass_log (rest : list string) (summary : string) :
  keyword_pass rest max_length summary
  = fold_left add_paragraph (keyword_log rest max_length summary) summary.
Proof.
  revert summary. induction rest as [|p rest IH]; intros summary; [done|].
  cbn [keyword_pass keyword_log].
  destruct (Str.len summary >=? max_length); [done|].
  destruct (has_keyword p && _); [|by apply IH].
  cbn [fold_left]. by apply IH.
Qed.

Lemma second_pass_log (rest : list string) (summary : string) :
  second_pass rest max_length summary
  = fold_left add_paragraph (second_log rest max_length summary) summary.
Proof.
  revert summary. induction rest as [|p rest IH]; intros summary; [done|].
  cbn [second_pass second_log].
  destruct (_ <=? max_length); [|done].
  destruct (negb (Str.contains p summary)); [|by apply IH].
  cbn [fold_left]. by apply IH.
Qed.

Lemma fold_add_join (l : list string) (s : string) :
  fold_left add_paragraph l s = Str.join Str.nl (s :: l).
Proof.
  revert s. induction l as [|x l IH]; intros s; [done|].
  cbn [fold_left]. rewrite IH. unfold Str.join, add_paragraph.
  destruct l as [|y l]; cbn [String.concat]; [done|].
  by rewrite !app_assoc'.
Qed.

(** Every append is guarded by the length test, so a pass never
    takes the summary beyond the larger of the budget and the length
    it started from. *)
Lemma keyword_pass_len (rest : list string) (summary : string) :
  Str.len (keyword_pass rest max_length summary)
  <= Z.max max_length (Str.len summary).
Proof.
  revert summary. induction rest as [|p rest IH]; intros summary;
    cbn [keyword_pass]; [lia|].
  destruct (Str.len summary >=? max_length); [lia|].
  destruct (has_keyword p); cbn [andb]; [|by apply IH].
  destruct (_ <=? max_length) eqn:E; [|by apply IH].
  apply Z.leb_le in E. etrans; [apply IH|].
  rewrite len_add_paragraph. lia.
Qed.

Lemma second_pass_len (rest : list string) (summary : string) :
  Str.len (second_pass rest max_length summary)
  <= Z.max max_length (Str.len summary).
Proof.
  revert summary. induction rest as [|p rest IH]; intros summary;
    cbn [second_pass]; [lia|].
  destruct (_ <=? max_length) eqn:E; [|lia]. apply Z.leb_le in E.
  destruct (negb (Str.contains p summary)); [|by apply IH].
  etrans; [apply IH|]. rewrite len_add_paragraph. lia.
Qed.

Lemma keyword_log_count (rest : list string) (summary p : string) :
  (count_occ string_dec (keyword_log rest max_length summary) p
   <= count_occ string_dec rest p)%nat.
Proof.
  revert summary. induction rest as [|q rest IH]; intros summary;
    cbn [keyword_log]; [done|].
  destruct (Str.len summary >=? max_length); [cbn; lia|].
  destruct (has_keyword q && _).
  - specialize (IH (add_paragraph summary q)). cbn [count_occ].
    destruct (string_dec q p); lia.
  - specialize (IH summary). cbn [count_occ]. destruct (string_dec q p); lia.
Qed.



Lemma second_log_count (rest : list string) (summary p : string) :
  (count_occ string_dec (second_log rest max_length summary) p
   <= count_occ string_dec rest p)%nat.
Proof.
  revert summary. induction rest as [|q rest IH]; intros summary;
    cbn [second_log]; [done|].
  destruct (_ <=? max_length); [|cbn; lia].
  destruct (negb (Str.contains q summary)).
  - specialize (IH (add_paragraph summary q)). cbn [count_occ].
    destruct (string_dec q p); lia.
  - specialize (IH summary). cbn [count_occ]. destruct (string_dec q p); lia.
Qed.


Lemma count_le_free (l : list string) (P : string -> Prop) :
  Forall P l ->
  forall k : list string,
    (forall p, (count_occ string_dec k p <= count_occ string_dec l p)%nat) ->
    Forall P k.
Proof.
  intros Hl k Hk. apply Forall_forall. intros p Hp%list_elem_of_In.
  apply (count_occ_In string_dec) in Hp.
  assert (In p l) as Hin
    by (apply (count_occ_In string_dec); specialize (Hk p); lia).
  rewrite Forall_forall in Hl. by apply Hl, list_elem_of_In.
Qed.

End Passes.

(** ** The summarizer *)

Section Summarizer.

Import Summary.

(** When truncation triggers, the summary is no longer than the
    larger of the budget and the first paragraph. *)
Lemma summarize_len_bound (blocks : list simplified) (max_length : Z) :
  Str.len (full_text_of blocks) > max_length ->
  Str.len (summarize blocks max_length)
  <= Z.max max_length
       (Str.len (List.hd EmptyString (paragraphs_of (full_text_of blocks)))).
Proof.
  intros Hlong. unfold summarize.
  destruct (Str.len (full_text_of blocks) <=? max_length) eqn:E;
    [apply Z.leb_le in E; lia|].
  destruct (paragraphs_of (full_text_of blocks)) as [|first rest] eqn:Eps.
  - cbn. lia.
  - cbn [List.tl List.skipn List.hd].
    etrans; [apply second_pass_len|].
    pose proof (keyword_pass_len max_length rest first). lia.
Qed.

(** The lines of a truncated summary: the first paragraph, what the
    keyword pass appended, what the second pass appended. *)
Lemma summarize_lines (blocks : list simplified) (max_length : Z)
    (first : string) (rest : list string) :
  (Str.len (full_text_of blocks) <=? max_length) = false ->
  paragraphs_of (full_text_of blocks) = first :: rest ->
  let kw := keyword_log rest max_length first in
  let sp := second_log rest max_length (keyword_pass rest max_length first) in
  summarize blocks max_length = Str.join Str.nl (first :: kw ++ sp)
  /\ Str.split "010" (summarize blocks max_length) = first :: kw ++ sp.
Proof.
  intros E Eps kw sp.
  assert (summarize blocks max_length = Str.join Str.nl (first :: kw ++ sp)) as Hs.
  { unfold summarize. rewrite E, Eps.
    change (List.tl (first :: rest)) with rest.
    change (List.skipn 1 (first :: rest)) with rest.
    rewrite <- fold_add_join, fold_left_app.
    unfold kw. rewrite <- keyword_pass_log.
    unfold sp. by rewrite <- second_pass_log. }
  split; [exact Hs|]. rewrite Hs. apply split_join; [done|].
  pose proof (split_free "010" (full_text_of blocks)) as Hfree.
  fold (paragraphs_of (full_text_of blocks)) in Hfree. rewrite Eps in Hfree.
  inversion Hfree as [|? ? Hfirst Hrest]; subst.
  constructor; [done|]. apply Forall_app. split.
  - eapply count_le_free; [exact Hrest|]. intros p. apply keyword_log_count.
  - eapply count_le_free; [exact Hrest|]. intros p. apply second_log_count.
Qed.


End Summarizer.

Section ShortDocument.

Lemma spec_paragraphs_text_blocks (blocks : list simplified) :
  SpecText.paragraphs blocks = Summary.text_blocks_of blocks.
Proof.
  unfold Summary.text_blocks_of.
  induction blocks as [|b blocks IH]; [done|].
  cbn [SpecText.paragraphs List.map List.filter].
  destruct (content b) as [|c text]; cbn [String.eqb negb]; by rewrite IH.
Qed.

Lemma spec_joined_join (P : list string) : SpecText.joined P = Str.join Str.nl P.
Proof.
  unfold Str.join. induction P as [|p P IH]; [done|].
  cbn [SpecText.joined String.concat]. destruct P as [|q P]; [done|].
  by rewrite IH.
Qed.

Lemma spec_full_text (blocks : list simplified) :
  SpecText.full_text blocks = Summary.full_text_of blocks.
Proof.
  unfold SpecText.full_text, Summary.full_text_of.
  by rewrite spec_joined_join, spec_paragraphs_text_blocks.
Qed.

End ShortDocument.

(** C6. Short-document identity: when the non-empty contents of the
    flattened blocks, joined by newlines as the specification words
    it ([SpecText.full_text]), are no longer than [max_length],
    [summarize] returns exactly that text: contents ["Hello"] and
    ["World"] with [max_length] 500 give ["Hello"], a newline,
    ["World"]. *)
Theorem short_document_identity (blocks : list simplified) (max_length : Z) :
  Z.of_nat (String.length (SpecText.full_text blocks)) <= max_length ->
  Summary.summarize blocks max_length = SpecText.full_text blocks.
Proof.
  rewrite spec_full_text. intros H. unfold Summary.summarize.
  apply Z.leb_le in H. unfold Str.len. by rewrite H.
Qed.

Lemma short_document_identity_witness :
  Z.of_nat (String.length (SpecText.full_text [para "Hello"; para "World"])) <= 500
  /\ Summary.summarize [para "Hello"; para "World"] 500
     = "Hello" +:+ String "010"%char "World".
Proof.
  assert (Z.of_nat (String.length (SpecText.full_text [para "Hello"; para "World"]))
          <= 500) as H by (vm_compute; discriminate).
  split; [exact H|].
  exact (short_document_identity [para "Hello"; para "World"] 500 H).
Defined.

(** C5. The budget at work on a document whose first paragraph alone
    is longer than [max_length]: truncation triggers and the summary is
    that first paragraph, ten characters against a budget of five. *)
Theorem budget_overrun_by_first_paragraph :
  let blocks := [para "aaaaaaaaaa"; para "b"] in
  Str.len (Summary.full_text_of blocks) > 5
  /\ Summary.summarize blocks 5 = "aaaaaaaaaa"
  /\ Str.len (Summary.summarize blocks 5) = 10.
Proof. by vm_compute. Qed.



(** ** The flattener *)

Section Flattener.

Lemma bind_result_assoc {A B C} (r : result A) (f : A -> result B)
    (g : B -> result C) :
  bind_result (bind_result r f) g = bind_result r (fun a => bind_result (f a) g).
Proof. by destruct r. Qed.

(** The loop is the comprehension over the first blocks. *)
Lemma simplify_loop_spec (rest : list json) (i max_blocks : Z)
    (acc : list simplified) :
  simplify_loop i rest max_blocks acc
  = bind_result
      (map_result simplify_block_content
         (List.firstn (Z.to_nat (max_blocks - i)) rest))
      (fun l => Ok (acc ++ l)).
Proof.
  revert i acc. induction rest as [|b rest IH]; intros i acc.
  - cbn [simplify_loop]. rewrite firstn_nil. cbn. by rewrite app_nil_r.
  - cbn [simplify_loop]. destruct (i >=? max_blocks) eqn:E.
    + apply Z.geb_le in E.
      replace (Z.to_nat (max_blocks - i)) with 0%nat by lia.
      cbn. by rewrite app_nil_r.
    + rewrite Z.geb_leb in E. apply Z.leb_gt in E.
      replace (Z.to_nat (max_blocks - i))
        with (S (Z.to_nat (max_blocks - (i + 1)))) by lia.
      cbn [List.firstn map_result].
      destruct (simplify_block_content b) as [s|e]; [|done].
      cbn [bind_result]. rewrite IH, bind_result_assoc.
      destruct (map_result _ _) as [l|e]; [|done].
      cbn [bind_result]. by rewrite <- app_assoc.
Qed.

Lemma map_result_Forall2 {A B} (f : A -> result B) (xs : list A) (ys : list B) :
  map_result f xs = Ok ys <-> Forall2 (fun x y => f x = Ok y) xs ys.
Proof.
  revert ys. induction xs as [|x xs IH]; intros ys; cbn [map_result].
  - split; [intros [= <-]; constructor|by inversion 1].
  - destruct (f x) as [y|e] eqn:Ex; cbn [bind_result].
    + destruct (map_result f xs) as [ys'|e] eqn:Exs; cbn [bind_result].
      * split.
        -- intros [= <-]. constructor; [done|]. by apply IH.
        -- inversion 1 as [|? y' ? ys'' Hy Hys]; subst.
           apply IH in Hys. congruence.
      * split; [done|]. inversion 1 as [|? y' ? ys'' Hy Hys]; subst.
        by apply IH in Hys.
    + split; [done|]. inversion 1; congruence.
Qed.

Lemma map_result_total {A B} (f : A -> result B) (xs : list A) :
  Forall (fun x => exists y, f x = Ok y) xs ->
  exists ys, map_result f xs = Ok ys.
Proof.
  induction 1 as [|x xs [y Hy] _ [ys Hys]]; cbn [map_result]; [by eexists|].
  rewrite Hy, Hys. by eexists.
Qed.

Lemma join_plain_total (items : list json) :
  forallb span_ok items = true ->
  exists c,
    bind_result
      (map_result (fun text => Py.get text "plain_text" (JStr "")) items)
      join_plain = Ok c.
Proof.
  induction items as [|v items IH]; cbn [forallb map_result]; [by eexists|].
  intros [Hv Hitems]%andb_true_iff. destruct (IH Hitems) as [c Hc].
  destruct (map_result _ items) as [parts|]; [|done]. cbn [bind_result] in Hc.
  destruct v as [| | | | |?|kvs]; try done. cbn [span_ok] in Hv.
  cbn [Py.get bind_result].
  destruct (assoc "plain_text" kvs) as [[| | | |text| |]|]; try done;
    cbn [join_plain]; rewrite Hc; by eexists.
Qed.

Lemma extract_plain_text_total (v : json) :
  rich_text_ok v = true -> exists c, extract_plain_text v = Ok c.
Proof.
  unfold rich_text_ok, extract_plain_text. destruct (truthy v) eqn:Et;
    cbn [negb orb]; [|by eexists].
  destruct v; try done. cbn [Py.iter bind_result]. apply join_plain_total.
Qed.

Lemma rich_text_of_total (items : list (string * json)) (kind : string) :
  body_ok items kind = true ->
  exists c, rich_text_of (JDict items) kind = Ok c.
Proof.
  unfold body_ok, rich_text_of. cbn [Py.get bind_result].
  destruct (assoc kind items) as [[| | | | | |inner]|]; try done.
  - cbn [Py.get bind_result]. destruct (assoc "rich_text" inner); intros H.
    + by apply extract_plain_text_total.
    + by eexists.
  - by eexists.
Qed.

Lemma extra_of_total (items : list (string * json)) (kind field : string)
    (default : json) :
  body_ok items kind = true ->
  exists v, extra_of (JDict items) kind field default = Ok v.
Proof.
  unfold body_ok, extra_of. cbn [Py.get bind_result].
  destruct (assoc kind items) as [[| | | | | |inner]|]; try done;
    intros _; cbn [Py.get]; by eexists.
Qed.

Lemma block_ok_body (items : list (string * json)) (kind : string) :
  block_ok (JDict items) = true ->
  In kind known_kinds ->
  eq_str (match assoc "type" items with Some t => t | None => JNull end) kind
    = true ->
  body_ok items kind = true.
Proof.
  unfold block_ok. rewrite forallb_forall. intros H Hin E.
  specialize (H kind Hin). by rewrite E in H.
Qed.

(** A block of the delivered shape never makes the flattener raise. *)
Lemma simplify_block_content_total (block : json) :
  block_ok block = true -> exists r, simplify_block_content block = Ok r.
Proof.
  destruct block as [| | | | | |items]; try done. intros Hok.
  unfold simplify_block_content. cbn [Py.get bind_result].
  set (t := match assoc "type" items with Some x => x | None => JNull end).
  pose proof (fun kind => block_ok_body items kind Hok) as Hbody. fold t in Hbody.
  repeat
    match goal with
    | |- context [if eq_str t ?k then _ else _] =>
        destruct (eq_str t k) eqn:?;
        [ assert (body_ok items k = true) as Hb
            by (apply Hbody; [cbn; tauto|done]);
          destruct (rich_text_of_total items k Hb) as [c ->];
          cbn [bind_result];
          try (destruct (extra_of_total items k "checked" (JBool false) Hb) as [v ->]);
          try (destruct (extra_of_total items k "language" (JStr "") Hb) as [v ->]);
          cbn [bind_result]; by eexists
        | ]
    end.
  by eexists.
Qed.

(** A block of a kind that has no branch keeps its type and gets the
    empty content. *)
Lemma simplify_unknown_kind (items : list (string * json)) :
  let t := match assoc "type" items with Some x => x | None => JNull end in
  known_kind t = false ->
  simplify_block_content (JDict items) = Ok (mk_simplified t "" None None).
Proof.
  intros t H. unfold known_kind, known_kinds in H. cbn [existsb] in H.
  repeat match goal with
         | H : _ || _ = false |- _ => apply orb_false_iff in H as [? ?]
         end.
  unfold simplify_block_content. cbn [Py.get bind_result]. fold t.
  repeat match goal with
         | H : eq_str t _ = false |- _ => rewrite H; clear H
         end.
  done.
Qed.

(** ['type'] is copied from the block. *)
Lemma simplify_block_type (items : list (string * json)) (r : simplified) :
  simplify_block_content (JDict items) = Ok r ->
  block_type r = match assoc "type" items with Some x => x | None => JNull end.
Proof.
  unfold simplify_block_content. cbn [Py.get bind_result].
  set (t := match assoc "type" items with Some x => x | None => JNull end).
  repeat
    match goal with
    | |- context [if eq_str t ?k then _ else _] =>
        destruct (eq_str t k);
        [ destruct (rich_text_of (JDict items) k); cbn [bind_result];
          try destruct (extra_of (JDict items) k _ _); cbn [bind_result];
          by intros [= <-]
        | ]
    end.
  by intros [= <-].
Qed.

Lemma simplify_unknown_content (b : json) (r : simplified) :
  simplify_block_content b = Ok r ->
  known_kind (block_type r) = false ->
  content r = "".
Proof.
  destruct b as [| | | | | |items]; try done. intros Hr Hk.
  rewrite (simplify_block_type items r Hr) in Hk.
  rewrite (simplify_unknown_kind items Hk) in Hr. by injection Hr as <-.
Qed.

End Flattener.

(** C4, as stated, fails beyond the cap: of 51 blocks the loop keeps
    the first 50, the default of [max_blocks]. *)
Lemma flatten_cap_counterexample :
  length (List.repeat (paragraph_block "x") 51) = 51%nat
  /\ exists recs,
       simplify_blocks (JList (List.repeat (paragraph_block "x") 51))
         default_max_blocks = Ok recs
       /\ length recs = 50%nat.
Proof.
  split; [reflexivity|]. eexists. split; [vm_compute; reflexivity|reflexivity].
Qed.

(** C4, amended. On blocks of the delivered shape the flattener does
    not raise and returns [min N max_blocks] records: record [i] is the
    simplification of block [i], and a record whose type is not one of
    the nine kinds has the empty content. *)
Theorem flatten_shape (blocks : list json) (max_blocks : Z) :
  Forall (fun b => block_ok b = true) blocks ->
  exists recs : list simplified,
    simplify_blocks (JList blocks) max_blocks = Ok recs
    /\ length recs = Nat.min (length blocks) (Z.to_nat max_blocks)
    /\ forall (i : nat) (b : json) (r : simplified),
         blocks !! i = Some b -> recs !! i = Some r ->
         simplify_block_content b = Ok r
         /\ (known_kind (block_type r) = false -> content r = "").
Proof.
  intros Hok. unfold simplify_blocks. cbn [Py.iter bind_result].
  rewrite simplify_loop_spec, Z.sub_0_r.
  destruct (map_result_total simplify_block_content
              (List.firstn (Z.to_nat max_blocks) blocks)) as [recs Hrecs].
  { apply Forall_take. eapply Forall_impl; [exact Hok|].
    intros b Hb. by apply simplify_block_content_total. }
  rewrite Hrecs. cbn [bind_result app]. exists recs. split; [done|].
  apply map_result_Forall2 in Hrecs.
  split.
  - rewrite <- (Forall2_length _ _ _ Hrecs), length_take. lia.
  - intros i b r Hb Hr.
    destruct (Forall2_lookup_r _ _ _ _ _ Hrecs Hr) as (b' & Hb' & Hs).
    apply lookup_take_Some in Hb' as [Hb' _].
    assert (b' = b) as -> by congruence.
    split; [done|]. by apply (simplify_unknown_content b).
Qed.

Lemma flatten_shape_witness :
  Forall (fun b => block_ok b = true)
    [paragraph_block "Hello"; JDict [("type", JStr "divider")]]
  /\ exists recs : list simplified,
       simplify_blocks
         (JList [paragraph_block "Hello"; JDict [("type", JStr "divider")]]) 50
       = Ok recs
       /\ length recs
          = Nat.min (length [paragraph_block "Hello"; JDict [("type", JStr "divider")]])
              (Z.to_nat 50)
       /\ forall (i : nat) (b : json) (r : simplified),
            [paragraph_block "Hello"; JDict [("type", JStr "divider")]] !! i = Some b ->
            recs !! i = Some r ->
            simplify_block_content b = Ok r
            /\ (known_kind (block_type r) = false -> content r = "").
Proof.
  assert (Forall (fun b => block_ok b = true)
            [paragraph_block "Hello"; JDict [("type", JStr "divider")]]) as H
    by (repeat constructor).
  split; [exact H|].
  exact (flatten_shape
           [paragraph_block "Hello"; JDict [("type", JStr "divider")]] 50 H).
Defined.

(** ** Timestamps: [fromisoformat] reads back what [isoformat] wrote *)

Section Timestamps.

Lemma digit_val_char (d : Z) :
  0 <= d <= 9 -> digit_val (digit_char d) = Some d.
Proof.
  intros H.
  assert (d = 0 \/ d = 1 \/ d = 2 \/ d = 3 \/ d = 4 \/ d = 5 \/ d = 6
          \/ d = 7 \/ d = 8 \/ d = 9) as Hd by lia.
  repeat destruct Hd as [->|Hd]; subst; reflexivity.
Qed.

Lemma take_pad (w k : nat) (n acc : Z) (tail : string) :
  0 <= n < 10 ^ Z.of_nat w ->
  take_digits (w + k) acc (pad w n tail)
  = take_digits k (acc * 10 ^ Z.of_nat w + n) tail.
Proof.
  revert k n tail. induction w as [|w IH]; intros k n tail Hn.
  - cbn [pad Nat.add]. f_equal. cbn in Hn. lia.
  - cbn [pad]. rewrite Nat2Z.inj_succ, Z.pow_succ_r in * by lia.
    replace (S w + k)%nat with (w + S k)%nat by lia.
    rewrite IH.
    2:{ split; [apply Z.div_pos; lia|]. apply Z.div_lt_upper_bound; lia. }
    cbn [take_digits]. rewrite digit_val_char.
    2:{ pose proof (Z.mod_pos_bound n 10). lia. }
    f_equal. pose proof (Z.div_mod n 10). lia.
Qed.

Lemma take_pad_all (w : nat) (n : Z) (tail : string) :
  0 <= n < 10 ^ Z.of_nat w ->
  take_digits w 0 (pad w n tail) = Some (n, tail).
Proof.
  intros Hn. pose proof (take_pad w 0 n 0 tail Hn) as H.
  rewrite Nat.add_0_r in H. by rewrite H.
Qed.

Lemma parse_isoformat (d : datetime) :
  valid d = true -> parse_fields (isoformat d) = Some d.
Proof.
  unfold valid. destruct d as [y m dd h mi s us]. cbn [year month day hour minute second microsecond].
  intros H. repeat (apply andb_true_iff in H as [H ?]).
  repeat match goal with
         | H : (_ <=? _) = true |- _ => apply Z.leb_le in H
         end.
  unfold isoformat, parse_fields.
  cbn [year month day hour minute second microsecond].
  rewrite take_pad_all by (cbn; lia). cbn [mbind option_bind expect Ascii.eqb Bool.eqb].
  rewrite take_pad_all by (cbn; lia). cbn [mbind option_bind expect Ascii.eqb Bool.eqb].
  rewrite take_pad_all.
  2:{ assert (days_in_month y m <= 31)
        by (unfold days_in_month; repeat case_match; lia).
      cbn; lia. }
  cbn [mbind option_bind expect Ascii.eqb Bool.eqb].
  rewrite take_pad_all by (cbn; lia). cbn [mbind option_bind expect Ascii.eqb Bool.eqb].
  rewrite take_pad_all by (cbn; lia). cbn [mbind option_bind expect Ascii.eqb Bool.eqb].
  rewrite take_pad_all by (cbn; lia). cbn [mbind option_bind expect Ascii.eqb Bool.eqb].
  destruct (us =? 0) eqn:Eus.
  - apply Z.eqb_eq in Eus. by subst.
  - cbn [mbind option_bind expect Ascii.eqb Bool.eqb].
    by rewrite take_pad_all by (cbn; lia).
Qed.

Lemma fromisoformat_isoformat (d : datetime) :
  valid d = true -> fromisoformat (JStr (isoformat d)) = Ok d.
Proof.
  intros H. unfold fromisoformat. by rewrite (parse_isoformat d H), H.
Qed.

End Timestamps.

(** ** The cache *)

Section Cache.

Import NotionCache.

Variable self : NotionCache.t.

Lemma get_cached_page_missing (page_id : string) (w : World) :
  files w !! get_cache_path self page_id = None ->
  get_cached_page self page_id w = (Ok JNull, w).
Proof.
  intros H. unfold get_cached_page, mbind, M_bind, os_path_exists.
  rewrite H. rewrite bool_decide_false; [reflexivity|]. by intros [? ?].
Qed.

Lemma get_cached_page_unparsable (page_id raw : string) (w : World) :
  files w !! get_cache_path self page_id = Some (Unparsable raw) ->
  get_cached_page self page_id w = (Raise JSONDecodeError, w).
Proof.
  intros H. unfold get_cached_page, mbind, M_bind, os_path_exists, json_load.
  rewrite H. rewrite bool_decide_true by done. cbv beta. by rewrite H.
Qed.

(** What a read does with a file that parses. *)
Lemma get_cached_page_document (page_id : string) (j : json) (w : World) :
  files w !! get_cache_path self page_id = Some (Document j) ->
  get_cached_page self page_id w
  = match Py.get j "cached_at" (JStr "2000-01-01") with
    | Raise e => (Raise e, w)
    | Ok stamp =>
        match fromisoformat stamp with
        | Raise e => (Raise e, w)
        | Ok last_updated =>
            if to_us (clock w (ticks w)) - to_us last_updated <? hours 24
            then (Py.get j "content" JNull, tick w)
            else (Ok JNull, tick w)
        end
    end.
Proof.
  intros H. unfold get_cached_page, mbind, M_bind, os_path_exists, json_load.
  rewrite H. rewrite bool_decide_true by done. cbv beta. rewrite H.
  unfold lift.
  destruct (Py.get j "cached_at" _) as [stamp|e]; [|done].
  destruct (fromisoformat stamp) as [last|e]; [|done].
  unfold datetime_now. by destruct (_ <? hours 24).
Qed.

(** A read never writes: expired entries stay where they are. *)
Lemma get_cached_page_files (page_id : string) (w : World) :
  files (snd (get_cached_page self page_id w)) = files w
  /\ http_log (snd (get_cached_page self page_id w)) = http_log w.
Proof.
  destruct (files w !! get_cache_path self page_id) as [[raw|j]|] eqn:E.
  - by rewrite (get_cached_page_unparsable _ _ _ E).
  - rewrite (get_cached_page_document _ _ _ E).
    repeat case_match; done.
  - by rewrite (get_cached_page_missing _ _ E).
Qed.

Lemma update_cache_run (page_id : string) (content : json) (w : World) :
  update_cache self page_id content w
  = (Ok tt,
     write_file (get_cache_path self page_id)
       (Document (cache_data content (clock w (ticks w)))) (tick w)).
Proof. reflexivity. Qed.

(** Reading an entry of the shape that [update_cache] writes. *)
Lemma get_cached_page_entry (page_id : string) (content : json)
    (cached_at : datetime) (w : World) :
  files w !! get_cache_path self page_id
    = Some (Document (cache_data content cached_at)) ->
  valid cached_at = true ->
  get_cached_page self page_id w
  = (Ok (if to_us (clock w (ticks w)) - to_us cached_at <? hours 24
         then content else JNull),
     tick w).
Proof.
  intros H Hv. rewrite (get_cached_page_document _ _ _ H).
  unfold cache_data. cbn [Py.get assoc String.eqb Ascii.eqb Bool.eqb].
  rewrite (fromisoformat_isoformat _ Hv). by destruct (_ <? hours 24).
Qed.

Lemma get_page_content_files (page_id : string) (force : bool) (w : World) :
  files (snd (get_page_content self page_id force w)) = files w
  /\ http_log (snd (get_page_content self page_id force w)) = http_log w.
Proof.
  unfold get_page_content. destruct force; cbn [negb]; [done|].
  unfold mbind, M_bind.
  pose proof (get_cached_page_files page_id w) as H.
  destruct (get_cached_page self page_id w) as [[v|e] w1]; cbn [snd] in *;
    [|done]. by destruct (truthy v).
Qed.

End Cache.

(** C1, as stated, fails: reading a cache file that is not JSON
    raises, it does not return [None]. *)
Lemma malformed_cache_counterexample :
  fst (NotionCache.get_cached_page NotionCache.default "page" Sample.garbled_world)
  = Raise JSONDecodeError
  /\ fst (NotionCache.get_cached_page NotionCache.default "page" Sample.garbled_world)
     <> Ok JNull.
Proof. split; [by vm_compute|]. vm_compute. discriminate. Qed.

(** C1, amended. A read of a key whose cache file is missing returns
    [None] and raises nothing; a read of a cache file that does not
    parse lets the [JSONDecodeError] of [json.load] escape. Neither
    changes the world. *)
Theorem cache_read_failures (self : NotionCache.t) (page_id : string) (w : World) :
  (files w !! NotionCache.get_cache_path self page_id = None ->
   NotionCache.get_cached_page self page_id w = (Ok JNull, w))
  /\ (forall raw : string,
        files w !! NotionCache.get_cache_path self page_id = Some (Unparsable raw) ->
        NotionCache.get_cached_page self page_id w = (Raise JSONDecodeError, w)).
Proof.
  split.
  - apply get_cached_page_missing.
  - intros raw. apply get_cached_page_unparsable.
Qed.

Lemma cache_read_failures_witness :
  NotionCache.get_cached_page NotionCache.default "page" Sample.empty_world
  = (Ok JNull, Sample.empty_world)
  /\ NotionCache.get_cached_page NotionCache.default "page" Sample.garbled_world
     = (Raise JSONDecodeError, Sample.garbled_world).
Proof.
  split.
  - apply (proj1 (cache_read_failures NotionCache.default "page" Sample.empty_world)).
    reflexivity.
  - apply (proj2 (cache_read_failures NotionCache.default "page" Sample.garbled_world)
             "{not json").
    reflexivity.
Defined.

(** C2. Cache TTL: a read that follows a write of [v] under the same
    key, with less than 24 hours between the two readings of the
    clock, returns [v]; and a read of an intact entry whose [cached_at]
    lies 24 hours or more before the clock returns [None] and leaves
    the file where it is. *)
Theorem cache_ttl (self : NotionCache.t) (k : string) (v : json) :
  (forall w : World,
     valid (clock w (ticks w)) = true ->
     to_us (clock w (S (ticks w))) - to_us (clock w (ticks w)) < hours 24 ->
     (NotionCache.update_cache self k v ≫= fun _ => NotionCache.get_cached_page self k) w
     = (Ok v,
        tick (write_file (NotionCache.get_cache_path self k)
                (Document (NotionCache.cache_data v (clock w (ticks w)))) (tick w))))
  /\ (forall (w : World) (cached_at : datetime),
        files w !! NotionCache.get_cache_path self k
          = Some (Document (NotionCache.cache_data v cached_at)) ->
        valid cached_at = true ->
        hours 24 <= to_us (clock w (ticks w)) - to_us cached_at ->
        NotionCache.get_cached_page self k w = (Ok JNull, tick w)
        /\ files (tick w) = files w).
Proof.
  split.
  - intros w Hv Hfresh. unfold mbind, M_bind.
    rewrite update_cache_run.
    rewrite (get_cached_page_entry self k v (clock w (ticks w))); [|by apply lookup_insert_eq|done].
    cbn [write_file tick clock ticks].
    apply Z.ltb_lt in Hfresh. by rewrite Hfresh.
  - intros w cached_at Hfile Hv Hold.
    rewrite (get_cached_page_entry self k v cached_at w Hfile Hv).
    apply Z.ltb_ge in Hold. by rewrite Hold.
Qed.

Lemma cache_ttl_witness :
  (NotionCache.update_cache NotionCache.default "page" (JStr "v")
     ≫= fun _ => NotionCache.get_cached_page NotionCache.default "page")
    Sample.empty_world
  = (Ok (JStr "v"),
     tick (write_file (NotionCache.get_cache_path NotionCache.default "page")
             (Document (NotionCache.cache_data (JStr "v") (Sample.hourly 0)))
             (tick Sample.empty_world)))
  /\ NotionCache.get_cached_page NotionCache.default "page" Sample.day_old_world
     = (Ok JNull, tick Sample.day_old_world)
  /\ files (tick Sample.day_old_world) = files Sample.day_old_world.
Proof.
  split.
  - apply (proj1 (cache_ttl NotionCache.default "page" (JStr "v")) Sample.empty_world).
    + reflexivity.
    + vm_compute. reflexivity.
  - apply (proj2 (cache_ttl NotionCache.default "page" (JStr "v"))
             Sample.day_old_world (Sample.daily 0)).
    + reflexivity.
    + reflexivity.
    + vm_compute. discriminate.
Defined.

(** C10. A cache file that holds a JSON object without [cached_at] is
    read without an exception: the default ['2000-01-01'] stands in
    for the timestamp, and with a clock that reads 2000-01-02 or later
    the entry counts as expired and the read returns [None]. *)
Theorem missing_cached_at_is_expired (self : NotionCache.t) (page_id : string)
    (items : list (string * json)) (w : World) :
  files w !! NotionCache.get_cache_path self page_id = Some (Document (JDict items)) ->
  assoc "cached_at" items = None ->
  to_us (mk_datetime 2000 1 2 0 0 0 0) <= to_us (clock w (ticks w)) ->
  fromisoformat (JStr "2000-01-01") = Ok (mk_datetime 2000 1 1 0 0 0 0)
  /\ NotionCache.get_cached_page self page_id w = (Ok JNull, tick w).
Proof.
  intros Hfile Hnone Hclock. split; [reflexivity|].
  rewrite (get_cached_page_document self page_id _ w Hfile).
  cbn [Py.get]. rewrite Hnone.
  change (fromisoformat (JStr "2000-01-01")) with (Ok (mk_datetime 2000 1 1 0 0 0 0)).
  cbv beta iota.
  assert (to_us (mk_datetime 2000 1 2 0 0 0 0)
          = to_us (mk_datetime 2000 1 1 0 0 0 0) + hours 24) as E by reflexivity.
  assert ((to_us (clock w (ticks w)) - to_us (mk_datetime 2000 1 1 0 0 0 0) <? hours 24)
          = false) as -> by (apply Z.ltb_ge; lia).
  reflexivity.
Qed.

Lemma missing_cached_at_is_expired_witness :
  fromisoformat (JStr "2000-01-01") = Ok (mk_datetime 2000 1 1 0 0 0 0)
  /\ NotionCache.get_cached_page NotionCache.default "page" Sample.unstamped_world
     = (Ok JNull, tick Sample.unstamped_world).
Proof.
  apply (missing_cached_at_is_expired NotionCache.default "page"
           [("content", JStr "v")] Sample.unstamped_world).
  - reflexivity.
  - reflexivity.
  - vm_compute. discriminate.
Defined.

(** ** Get-or-fetch: [get_page] and [get_block_children] *)

Section GetOrFetch.

Import NotionManager.

Variable self : NotionManager.t.

(** A fetch logs its request and changes nothing else. *)
Lemma fetch_page_world (page_id : string) (w : World) :
  snd (fetch_page self page_id w) = log_request (page_url self page_id) w.
Proof.
  unfold fetch_page, mbind, M_bind, requests_get.
  destruct (http w _ _) as [e|status body]; [done|].
  unfold raise_for_status. cbn [fst].
  destruct ((400 <=? status) && (status <? 600)); [done|].
  unfold mret, M_ret, response_json. cbn [snd]. by destruct body.
Qed.

Lemma fetch_block_children_world (block_id : string) (w : World) :
  snd (fetch_block_children self block_id w)
  = log_request (children_url self block_id) w.
Proof.
  unfold fetch_block_children, mbind, M_bind, requests_get.
  destruct (http w _ _) as [e|status body]; [done|].
  unfold raise_for_status. cbn [fst].
  destruct ((400 <=? status) && (status <? 600)); [done|].
  unfold mret, M_ret, response_json. cbn [snd].
  destruct body as [raw|j]; [done|]. unfold lift.
  by destruct (Py.get j "results" (JList [])).
Qed.

(** The step after the cache lookup, for a lookup that gave [cached]. *)
Lemma get_page_after_lookup (page_id : string) (force : bool)
    (w w1 : World) (cached : json) :
  NotionCache.get_page_content (cache self) page_id force w = (Ok cached, w1) ->
  get_page self page_id force w
  = if truthy cached && negb force then (Ok cached, w1)
    else match fetch_page self page_id w1 with
         | (Ok page_data, w2) =>
             (Ok page_data,
              write_file (NotionCache.get_cache_path (cache self) page_id)
                (Document (NotionCache.cache_data page_data (clock w2 (ticks w2))))
                (tick w2))
         | (Raise e, w2) => (Raise e, w2)
         end.
Proof.
  intros H. unfold get_page. unfold mbind at 1. unfold M_bind at 1. rewrite H.
  destruct (truthy cached && negb force); [done|].
  unfold mbind at 1. unfold M_bind at 1.
  destruct (fetch_page self page_id w1) as [[page_data|e] w2]; done.
Qed.

Lemma get_block_children_after_lookup (block_id : string) (force : bool)
    (w w1 : World) (cached : json) :
  NotionCache.get_page_content (cache self) (block_id +:+ "_children") force w
    = (Ok cached, w1) ->
  get_block_children self block_id force w
  = if truthy cached && negb force then (Ok cached, w1)
    else match fetch_block_children self block_id w1 with
         | (Ok blocks_data, w2) =>
             (Ok blocks_data,
              write_file
                (NotionCache.get_cache_path (cache self) (block_id +:+ "_children"))
                (Document (NotionCache.cache_data blocks_data (clock w2 (ticks w2))))
                (tick w2))
         | (Raise e, w2) => (Raise e, w2)
         end.
Proof.
  intros H. unfold get_block_children. unfold mbind at 1. unfold M_bind at 1.
  rewrite H. destruct (truthy cached && negb force); [done|].
  unfold mbind at 1. unfold M_bind at 1.
  destruct (fetch_block_children self block_id w1) as [[blocks_data|e] w2]; done.
Qed.

(** A forced refresh does not look at the cache. *)
Lemma get_page_content_forced (c : NotionCache.t) (key : string) (w : World) :
  NotionCache.get_page_content c key true w = (Ok JNull, w).
Proof. reflexivity. Qed.

(** The hit path for a truthy cached value: it is returned and no
    request is made. *)
Lemma cache_hit_truthy (page_id : string) (w w1 : World) (v : json) :
  NotionCache.get_cached_page (cache self) page_id w = (Ok v, w1) ->
  truthy v = true ->
  get_page self page_id false w = (Ok v, w1) /\ http_log w1 = http_log w.
Proof.
  intros H Hv.
  assert (NotionCache.get_page_content (cache self) page_id false w = (Ok v, w1)) as Hc.
  { unfold NotionCache.get_page_content. cbn [negb].
    unfold mbind, M_bind. rewrite H, Hv. reflexivity. }
  rewrite (get_page_after_lookup _ _ _ _ _ Hc), Hv. split; [done|].
  pose proof (get_cached_page_files (cache self) page_id w) as [_ Hlog].
  by rewrite H in Hlog.
Qed.

End GetOrFetch.

(** C3 at a page without blocks. The cache holds a valid, unexpired
    entry for the children of ["page"], the empty list; a read returns
    it; yet [get_block_children] without forced refresh sends a request
    and rewrites the entry. *)
Theorem empty_cached_value_is_refetched :
  NotionCache.get_cached_page NotionCache.default "page_children"
    Sample.no_children_world
  = (Ok (JList []), tick Sample.no_children_world)
  /\ fst (NotionManager.get_block_children Sample.manager "page" false
            Sample.no_children_world)
     = Ok (JList [paragraph_block "new"])
  /\ http_log (snd (NotionManager.get_block_children Sample.manager "page" false
                      Sample.no_children_world))
     = ["https://api.notion.com/v1/blocks/page/children"]
  /\ files (snd (NotionManager.get_block_children Sample.manager "page" false
                   Sample.no_children_world))
       !! Sample.children_path
     = Some (Document (NotionCache.cache_data (JList [paragraph_block "new"])
                         (Sample.hourly 2))).
Proof. repeat split; vm_compute; reflexivity. Qed.

(** C7. Fetch-failure atomicity: when the cache lookup sends
    [get_page] or [get_block_children] on to the fetch (a miss, a
    falsy cached value or a forced refresh) and the fetch raises, that
    exception is what the call raises, and the cache files are those
    from before the call. *)
Theorem fetch_failure_atomic (self : NotionManager.t) (key : string)
    (force : bool) (w w1 : World) (cached : json) (e : exn) :
  (NotionCache.get_page_content (NotionManager.cache self) key force w
     = (Ok cached, w1) ->
   truthy cached && negb force = false ->
   fst (NotionManager.fetch_page self key w1) = Raise e ->
   fst (NotionManager.get_page self key force w) = Raise e
   /\ files (snd (NotionManager.get_page self key force w)) = files w)
  /\ (NotionCache.get_page_content (NotionManager.cache self)
        (key +:+ "_children") force w = (Ok cached, w1) ->
      truthy cached && negb force = false ->
      fst (NotionManager.fetch_block_children self key w1) = Raise e ->
      fst (NotionManager.get_block_children self key force w) = Raise e
      /\ files (snd (NotionManager.get_block_children self key force w)) = files w).
Proof.
  split.
  - intros Hc Hmiss Hfetch.
    rewrite (get_page_after_lookup self key force w w1 cached Hc), Hmiss.
    pose proof (fetch_page_world self key w1) as Hw.
    pose proof (get_page_content_files (NotionManager.cache self) key force w) as [Hf _].
    rewrite Hc in Hf. cbn [snd] in Hf.
    destruct (NotionManager.fetch_page self key w1) as [[v|e'] w2];
      cbn [fst snd] in *; [discriminate|].
    injection Hfetch as ->. split; [done|]. by rewrite Hw.
  - intros Hc Hmiss Hfetch.
    rewrite (get_block_children_after_lookup self key force w w1 cached Hc), Hmiss.
    pose proof (fetch_block_children_world self key w1) as Hw.
    pose proof (get_page_content_files (NotionManager.cache self)
                  (key +:+ "_children") force w) as [Hf _].
    rewrite Hc in Hf. cbn [snd] in Hf.
    destruct (NotionManager.fetch_block_children self key w1) as [[v|e'] w2];
      cbn [fst snd] in *; [discriminate|].
    injection Hfetch as ->. split; [done|]. by rewrite Hw.
Qed.

Lemma fetch_failure_atomic_witness :
  (fst (NotionManager.get_page Sample.manager "page" false Sample.day_old_world)
   = Raise (RequestException "connection refused")
   /\ files (snd (NotionManager.get_page Sample.manager "page" false
                    Sample.day_old_world))
      = files Sample.day_old_world)
  /\ (fst (NotionManager.get_block_children Sample.manager "page" true
             Sample.day_old_world)
      = Raise (RequestException "connection refused")
      /\ files (snd (NotionManager.get_block_children Sample.manager "page" true
                       Sample.day_old_world))
         = files Sample.day_old_world).
Proof.
  split.
  - apply (proj1 (fetch_failure_atomic Sample.manager "page" false
                    Sample.day_old_world (tick Sample.day_old_world) JNull
                    (RequestException "connection refused"))).
    + vm_compute. reflexivity.
    + reflexivity.
    + reflexivity.
  - apply (proj2 (fetch_failure_atomic Sample.manager "page" true
                    Sample.day_old_world Sample.day_old_world JNull
                    (RequestException "connection refused"))).
    + reflexivity.
    + reflexivity.
    + reflexivity.
Defined.



(** * Further properties of the cache, the flattener and the summarizer *)

(** ** The summarizer beyond the claims *)

Section SummaryShape.

Import Summary.

Lemma join_cons (sep x : string) (l : list string) :
  l <> [] -> Str.join sep (x :: l) = x +:+ sep +:+ Str.join sep l.
Proof. by destruct l. Qed.

Lemma join_split (sep : ascii) (s : string) :
  Str.join (String sep "") (Str.split sep s) = s.
Proof.
  induction s as [|c s IH]; [done|]. cbn [Str.split].
  pose proof (split_nonempty sep s) as Hne.
  destruct (Ascii.eqb c sep) eqn:E.
  - apply Ascii.eqb_eq in E as ->. by rewrite join_cons, IH.
  - destruct (Str.split sep s) as [|h t]; [done|].
    destruct t as [|h' t].
    + cbn in IH |- *. by rewrite IH.
    + rewrite join_cons in IH |- * by done. by rewrite app_cons, IH.
Qed.

Lemma keyword_log_sublist (max_length : Z) (rest : list string) (summary : string) :
  sublist (keyword_log rest max_length summary) rest.
Proof.
  revert summary. induction rest as [|p rest IH]; intros summary;
    cbn [keyword_log]; [constructor|].
  destruct (Str.len summary >=? max_length); [apply sublist_nil_l|].
  destruct (has_keyword p && _); [by apply sublist_skip|by apply sublist_cons].
Qed.

Lemma keyword_log_keywords (max_length : Z) (rest : list string) (summary : string) :
  Forall (fun p => has_keyword p = true) (keyword_log rest max_length summary).
Proof.
  revert summary. induction rest as [|p rest IH]; intros summary;
    cbn [keyword_log]; [constructor|].
  destruct (Str.len summary >=? max_length); [constructor|].
  destruct (has_keyword p) eqn:Ek; cbn [andb]; [|by apply IH].
  destruct (_ <=? max_length); [|by apply IH]. by constructor.
Qed.

Lemma second_log_sublist (max_length : Z) (rest : list string) (summary : string) :
  sublist (second_log rest max_length summary) rest.
Proof.
  revert summary. induction rest as [|p rest IH]; intros summary;
    cbn [second_log]; [constructor|].
  destruct (_ <=? max_length); [|apply sublist_nil_l].
  destruct (negb (Str.contains p summary)); [by apply sublist_skip|by apply sublist_cons].
Qed.

Lemma text_blocks_all_empty (blocks : list simplified) :
  Forall (fun b => content b = "") blocks -> text_blocks_of blocks = [].
Proof.
  unfold text_blocks_of. induction 1 as [|b blocks Hb _ IH]; [done|].
  cbn [List.map List.filter]. by rewrite Hb.
Qed.

End SummaryShape.

(** X1. A summary is no longer than [max_length] whenever the first
    paragraph of the document is: the first paragraph is the only text
    that enters the summary without the length test. *)
Theorem summary_within_budget (blocks : list simplified) (max_length : Z) :
  Str.len (List.hd EmptyString
             (Summary.paragraphs_of (Summary.full_text_of blocks))) <= max_length ->
  Str.len (Summary.summarize blocks max_length) <= max_length.
Proof.
  intros Hfirst.
  destruct (Str.len (Summary.full_text_of blocks) <=? max_length) eqn:E.
  - unfold Summary.summarize. rewrite E. by apply Z.leb_le.
  - apply Z.leb_gt in E.
    pose proof (summarize_len_bound blocks max_length) as H. lia.
Qed.

Lemma summary_within_budget_witness :
  Str.len (List.hd EmptyString
             (Summary.paragraphs_of
                (Summary.full_text_of
                   [para "Intro"; para "Detail one"; para "This is a key finding";
                    para "Detail two"]))) <= 30
  /\ Str.len (Summary.summarize
                [para "Intro"; para "Detail one"; para "This is a key finding";
                 para "Detail two"] 30) <= 30.
Proof.
  assert (Str.len (List.hd EmptyString
             (Summary.paragraphs_of
                (Summary.full_text_of
                   [para "Intro"; para "Detail one"; para "This is a key finding";
                    para "Detail two"]))) <= 30) as H
    by (vm_compute; discriminate).
  split; [exact H|].
  exact (summary_within_budget
           [para "Intro"; para "Detail one"; para "This is a key finding";
            para "Detail two"] 30 H).
Defined.

(** X2. The shape of every summary: its lines are the first paragraph
    of the document, then paragraphs that hold a keyword, in document
    order, then further paragraphs, again in document order; each of
    the two runs is a subsequence of the later paragraphs. *)
Theorem summary_shape (blocks : list simplified) (max_length : Z) :
  exists (first : string) (rest kw more : list string),
    Summary.paragraphs_of (Summary.full_text_of blocks) = first :: rest
    /\ Str.split "010" (Summary.summarize blocks max_length) = first :: kw ++ more
    /\ sublist kw rest
    /\ Forall (fun p => Summary.has_keyword p = true) kw
    /\ sublist more rest.
Proof.
  destruct (Summary.paragraphs_of (Summary.full_text_of blocks))
    as [|first rest] eqn:Eps; [by apply split_nonempty in Eps|].
  exists first, rest.
  destruct (Str.len (Summary.full_text_of blocks) <=? max_length) eqn:E.
  - exists [], rest. split; [done|]. split.
    + unfold Summary.summarize. by rewrite E.
    + split; [apply sublist_nil_l|]. split; [constructor|done].
  - destruct (summarize_lines blocks max_length first rest E Eps) as [_ Hlines].
    do 2 eexists. split; [done|]. split; [exact Hlines|].
    split; [apply keyword_log_sublist|].
    split; [apply keyword_log_keywords|apply second_log_sublist].
Qed.

(** X3. A page without text has the empty summary, whatever
    [max_length] is, negative values included. *)
Theorem summary_of_empty_page (blocks : list simplified) (max_length : Z) :
  Forall (fun b => content b = "") blocks ->
  Summary.summarize blocks max_length = "".
Proof.
  intros H. unfold Summary.summarize, Summary.full_text_of.
  rewrite (text_blocks_all_empty blocks H). cbn.
  by destruct (Str.len "" <=? max_length).
Qed.

Lemma summary_of_empty_page_witness :
  Forall (fun b => content b = "")
    [mk_simplified (JStr "divider") "" None None; para ""]
  /\ Summary.summarize [mk_simplified (JStr "divider") "" None None; para ""] (-1)
     = "".
Proof.
  assert (Forall (fun b => content b = "")
            [mk_simplified (JStr "divider") "" None None; para ""]) as H
    by (repeat constructor).
  split; [exact H|].
  exact (summary_of_empty_page
           [mk_simplified (JStr "divider") "" None None; para ""] (-1) H).
Defined.

(** ** The flattener beyond the claims *)

Section FlattenMore.

Lemma eq_str_true (v : json) (s : string) : eq_str v s = true -> v = JStr s.
Proof.
  destruct v; try done. cbn [eq_str]. by intros ->%String.eqb_eq.
Qed.

Lemma plain_texts_of_spans (spans : list json) :
  forallb span_ok spans = true ->
  bind_result
    (map_result (fun text => Py.get text "plain_text" (JStr "")) spans)
    join_plain
  = Ok (String.concat "" (List.map span_text spans)).
Proof.
  induction spans as [|v spans IH]; cbn [forallb map_result List.map]; [done|].
  intros [Hv Hspans]%andb_true_iff. specialize (IH Hspans).
  destruct (map_result _ spans) as [parts|]; [|done]. cbn [bind_result] in IH.
  assert (String.concat "" (span_text v :: List.map span_text spans)
          = span_text v +:+ String.concat "" (List.map span_text spans)) as ->.
  { destruct (List.map span_text spans); cbn [String.concat]; [|done].
    by rewrite app_empty_r. }
  destruct v as [| | | | |?|kvs]; try done. cbn [span_ok] in Hv.
  unfold span_text. cbn [Py.get bind_result].
  destruct (assoc "plain_text" kvs) as [[| | | |text| |]|]; try done;
    cbn [join_plain]; rewrite IH; done.
Qed.

Lemma plain_texts_not_dict (spans : list json) :
  existsb (fun v => negb (is_dict v)) spans = true ->
  map_result (fun text => Py.get text "plain_text" (JStr "")) spans
  = Raise AttributeError.
Proof.
  induction spans as [|v spans IH]; cbn [existsb map_result]; [done|].
  intros H. destruct v; try done. cbn [is_dict negb orb] in H.
  cbn [Py.get bind_result]. by rewrite (IH H).
Qed.

End FlattenMore.

(** X4. On a rich-text list of the delivered shape
    [extract_plain_text] returns the texts of the spans, concatenated
    in order; a span without ['plain_text'] contributes nothing. *)
Theorem extract_plain_text_concat (spans : list json) :
  forallb span_ok spans = true ->
  extract_plain_text (JList spans)
  = Ok (String.concat "" (List.map span_text spans)).
Proof.
  intros H. unfold extract_plain_text. destruct spans as [|v spans]; [done|].
  cbn [truthy negb Py.iter bind_result]. by apply plain_texts_of_spans.
Qed.

Lemma extract_plain_text_concat_witness :
  forallb span_ok
    [JDict [("plain_text", JStr "Hello, ")]; JDict [("href", JNull)];
     JDict [("plain_text", JStr "world")]] = true
  /\ extract_plain_text
       (JList [JDict [("plain_text", JStr "Hello, ")]; JDict [("href", JNull)];
               JDict [("plain_text", JStr "world")]])
     = Ok (String.concat ""
             (List.map span_text
                [JDict [("plain_text", JStr "Hello, ")]; JDict [("href", JNull)];
                 JDict [("plain_text", JStr "world")]])).
Proof.
  split; [reflexivity|].
  apply (extract_plain_text_concat
           [JDict [("plain_text", JStr "Hello, ")]; JDict [("href", JNull)];
            JDict [("plain_text", JStr "world")]]).
  reflexivity.
Defined.

(** X5. A rich-text list that holds anything but dicts makes
    [extract_plain_text] raise [AttributeError], whatever the other
    spans are: the comprehension calls [.get] on every element before
    the join looks at any text. *)
Theorem extract_plain_text_not_dict (spans : list json) :
  existsb (fun v => negb (is_dict v)) spans = true ->
  extract_plain_text (JList spans) = Raise AttributeError.
Proof.
  intros H. unfold extract_plain_text. destruct spans as [|v spans]; [done|].
  cbn [truthy negb Py.iter bind_result]. by rewrite (plain_texts_not_dict _ H).
Qed.

Lemma extract_plain_text_not_dict_witness :
  existsb (fun v => negb (is_dict v))
    [JDict [("plain_text", JInt 1)]; JStr "loose text"] = true
  /\ extract_plain_text (JList [JDict [("plain_text", JInt 1)]; JStr "loose text"])
     = Raise AttributeError.
Proof.
  split; [reflexivity|].
  apply (extract_plain_text_not_dict
           [JDict [("plain_text", JInt 1)]; JStr "loose text"]).
  reflexivity.
Defined.

(** X6. The extras of a simplified block follow its type: ['checked']
    is set exactly for a ["to_do"] block and ['language'] exactly for a
    ["code"] block. *)
Theorem simplified_extras_follow_type (block : json) (r : simplified) :
  simplify_block_content block = Ok r ->
  match checked r with Some _ => true | None => false end
    = eq_str (block_type r) "to_do"
  /\ match language r with Some _ => true | None => false end
     = eq_str (block_type r) "code".
Proof.
  destruct block as [| | | | | |items]; try done.
  unfold simplify_block_content. cbn [Py.get bind_result].
  set (t := match assoc "type" items with Some x => x | None => JNull end).
  repeat
    match goal with
    | |- context [if eq_str t ?k then _ else _] =>
        let E := fresh "E" in
        destruct (eq_str t k) eqn:E;
        [ apply eq_str_true in E;
          destruct (rich_text_of (JDict items) k); cbn [bind_result];
          try destruct (extra_of (JDict items) k _ _); cbn [bind_result];
          try done; intros [= <-]; cbn [checked language block_type];
          by rewrite E
        | ]
    end.
  intros [= <-]. cbn [checked language block_type]. by split.
Qed.

Lemma simplified_extras_follow_type_witness :
  simplify_block_content
    (JDict [("type", JStr "to_do");
            ("to_do", JDict [("rich_text", JList [JDict [("plain_text", JStr "buy milk")]])])])
  = Ok (mk_simplified (JStr "to_do") "buy milk" (Some (JBool false)) None)
  /\ match checked (mk_simplified (JStr "to_do") "buy milk" (Some (JBool false)) None)
     with Some _ => true | None => false end
     = eq_str (block_type
                 (mk_simplified (JStr "to_do") "buy milk" (Some (JBool false)) None))
         "to_do"
  /\ match language (mk_simplified (JStr "to_do") "buy milk" (Some (JBool false)) None)
     with Some _ => true | None => false end
     = eq_str (block_type
                 (mk_simplified (JStr "to_do") "buy milk" (Some (JBool false)) None))
         "code".
Proof.
  assert (simplify_block_content
    (JDict [("type", JStr "to_do");
            ("to_do", JDict [("rich_text", JList [JDict [("plain_text", JStr "buy milk")]])])])
  = Ok (mk_simplified (JStr "to_do") "buy milk" (Some (JBool false)) None)) as H
    by reflexivity.
  split; [exact H|].
  exact (simplified_extras_follow_type _ _ H).
Defined.

(** X7. The flattener never returns more than [max_blocks] records,
    whatever it is given to iterate over. *)
Theorem flatten_at_most_max_blocks (blocks : json) (max_blocks : Z)
    (recs : list simplified) :
  simplify_blocks blocks max_blocks = Ok recs ->
  (length recs <= Z.to_nat max_blocks)%nat.
Proof.
  unfold simplify_blocks. destruct (Py.iter blocks) as [items|]; [|done].
  cbn [bind_result]. rewrite simplify_loop_spec, Z.sub_0_r.
  destruct (map_result _ _) as [l|] eqn:El; [|done].
  cbn [bind_result app]. intros [= <-].
  apply map_result_Forall2 in El. rewrite <- (Forall2_length _ _ _ El).
  rewrite length_take. lia.
Qed.

Lemma flatten_at_most_max_blocks_witness :
  simplify_blocks (JList [paragraph_block "a"; paragraph_block "b"; JNull]) 2
  = Ok [para "a"; para "b"]
  /\ (length [para "a"; para "b"] <= Z.to_nat 2)%nat.
Proof.
  assert (simplify_blocks (JList [paragraph_block "a"; paragraph_block "b"; JNull]) 2
          = Ok [para "a"; para "b"]) as H by reflexivity.
  split; [exact H|].
  exact (flatten_at_most_max_blocks _ _ _ H).
Defined.

(** X8. Blocks beyond the cap are never looked at: appending anything
    after the first [max_blocks] blocks, blocks that would raise
    included, does not change what the flattener does. *)
Theorem flatten_ignores_blocks_beyond_cap (pre post : list json) (max_blocks : Z) :
  max_blocks <= Z.of_nat (length pre) ->
  simplify_blocks (JList (pre ++ post)) max_blocks
  = simplify_blocks (JList pre) max_blocks.
Proof.
  intros H. unfold simplify_blocks. cbn [Py.iter bind_result].
  rewrite !simplify_loop_spec, Z.sub_0_r.
  by rewrite take_app_le by lia.
Qed.

Lemma flatten_ignores_blocks_beyond_cap_witness :
  1 <= Z.of_nat (length [paragraph_block "a"])
  /\ simplify_blocks (JList ([paragraph_block "a"] ++ [JNull])) 1
     = simplify_blocks (JList [paragraph_block "a"]) 1.
Proof.
  assert (1 <= Z.of_nat (length [paragraph_block "a"])) as H
    by (vm_compute; discriminate).
  split; [exact H|].
  exact (flatten_ignores_blocks_beyond_cap [paragraph_block "a"] [JNull] 1 H).
Defined.

(** ** The cache beyond the claims *)

Section CacheMore.

Import NotionCache.

Lemma get_cached_page_world (self : NotionCache.t) (page_id : string) (w : World) :
  snd (get_cached_page self page_id w) = w
  \/ snd (get_cached_page self page_id w) = tick w.
Proof.
  destruct (files w !! get_cache_path self page_id) as [[raw|j]|] eqn:E.
  - rewrite (get_cached_page_unparsable _ _ _ _ E). by left.
  - rewrite (get_cached_page_document _ _ _ _ E).
    repeat case_match; cbn [snd]; auto.
  - rewrite (get_cached_page_missing _ _ _ E). by left.
Qed.

(** What a read returns depends on the file of its key and on the
    clock alone. *)
Lemma get_cached_page_ext (self : NotionCache.t) (page_id : string) (w1 w2 : World) :
  files w1 !! get_cache_path self page_id = files w2 !! get_cache_path self page_id ->
  clock w1 (ticks w1) = clock w2 (ticks w2) ->
  fst (get_cached_page self page_id w1) = fst (get_cached_page self page_id w2).
Proof.
  intros Hf Hc.
  destruct (files w2 !! get_cache_path self page_id) as [[raw|j]|] eqn:E.
  - by rewrite (get_cached_page_unparsable _ _ _ _ Hf),
      (get_cached_page_unparsable _ _ _ _ E).
  - rewrite (get_cached_page_document _ _ _ _ Hf),
      (get_cached_page_document _ _ _ _ E), Hc.
    repeat case_match; done.
  - by rewrite (get_cached_page_missing _ _ _ Hf), (get_cached_page_missing _ _ _ E).
Qed.

Lemma app_inj_l (s a b : string) : s +:+ a = s +:+ b -> a = b.
Proof.
  induction s as [|c s IH]; [done|]. rewrite !app_cons. intros [= H]. by apply IH.
Qed.

Lemma app_length (a t : string) :
  String.length (a +:+ t) = (String.length a + String.length t)%nat.
Proof. induction a as [|c a IH]; [done|]. rewrite app_cons. cbn. by rewrite IH. Qed.

Lemma app_inj_r (a b t : string) : a +:+ t = b +:+ t -> a = b.
Proof.
  intros H.
  assert (String.length a = String.length b) as Hlen.
  { apply (f_equal String.length) in H. rewrite !app_length in H. lia. }
  revert b H Hlen. induction a as [|c a IH]; intros [|d b] H Hlen; try done.
  rewrite !app_cons in H. injection H as -> H. f_equal. apply IH; [done|].
  cbn in Hlen. lia.
Qed.

Lemma starts_with_sep_json (k : string) :
  starts_with_sep k = false -> starts_with_sep (k +:+ ".json") = false.
Proof. by destruct k. Qed.

(** Keys that do not begin with the separator have files of their own. *)
Lemma get_cache_path_inj (self : NotionCache.t) (k1 k2 : string) :
  starts_with_sep k1 = false -> starts_with_sep k2 = false ->
  get_cache_path self k1 = get_cache_path self k2 -> k1 = k2.
Proof.
  intros H1%starts_with_sep_json H2%starts_with_sep_json.
  unfold get_cache_path, os_path_join. rewrite H1, H2.
  destruct (String.eqb (cache_dir self) "" || ends_with_sep (cache_dir self)).
  - intros H%app_inj_l. by apply app_inj_r in H.
  - intros H%app_inj_l%app_inj_l. by apply app_inj_r in H.
Qed.

End CacheMore.

(** X9. A read is read-only: whether it returns or raises,
    [get_cached_page] leaves the world as it was or with one more
    reading of the clock; it deletes no expired entry, writes no file
    and sends no request. *)
Theorem cache_read_is_read_only (self : NotionCache.t) (page_id : string)
    (w : World) :
  (snd (NotionCache.get_cached_page self page_id w) = w
   \/ snd (NotionCache.get_cached_page self page_id w) = tick w)
  /\ files (snd (NotionCache.get_cached_page self page_id w)) = files w
  /\ http_log (snd (NotionCache.get_cached_page self page_id w)) = http_log w.
Proof.
  split; [apply get_cached_page_world|]. apply get_cached_page_files.
Qed.

(** X10. Entries of different keys do not interfere: for two distinct
    keys that are plain file names (no ["/"] in them), on a store
    where different names in the cache directory are different files,
    a read of the one after a write of the other returns what it
    would have returned without the write. *)
Theorem cache_write_leaves_other_keys (self : NotionCache.t) (k k' : string)
    (v : json) (w : World) :
  k <> k' ->
  Str.free_of "/" k = true -> Str.free_of "/" k' = true ->
  fst ((NotionCache.update_cache self k v
          ≫= fun _ => NotionCache.get_cached_page self k') w)
  = fst (NotionCache.get_cached_page self k' (tick w)).
Proof.
  intros Hne Hk Hk'. unfold mbind, M_bind. rewrite update_cache_run.
  apply get_cached_page_ext; [|done].
  cbn [write_file files]. apply lookup_insert_ne.
  intros H. apply get_cache_path_inj in H; [done| |].
  - destruct k as [|c k]; [done|]. cbn [Str.free_of starts_with_sep] in *.
    apply andb_true_iff in Hk as [Hc _]. by apply negb_true_iff in Hc.
  - destruct k' as [|c k']; [done|]. cbn [Str.free_of starts_with_sep] in *.
    apply andb_true_iff in Hk' as [Hc _]. by apply negb_true_iff in Hc.
Qed.

Lemma cache_write_leaves_other_keys_witness :
  fst ((NotionCache.update_cache NotionCache.default "other" (JStr "x")
          ≫= fun _ => NotionCache.get_cached_page NotionCache.default "page")
         Sample.fresh_page_world)
  = fst (NotionCache.get_cached_page NotionCache.default "page"
           (tick Sample.fresh_page_world))
  /\ fst (NotionCache.get_cached_page NotionCache.default "page"
            (tick Sample.fresh_page_world))
     = Ok (JDict [("id", JStr "old")]).
Proof.
  split.
  - apply (cache_write_leaves_other_keys NotionCache.default "other" "page").
    + discriminate.
    + reflexivity.
    + reflexivity.
  - vm_compute. reflexivity.
Defined.

(** X11. The timestamp round trip of the cache: the text that
    [update_cache] stores for a valid reading of the clock is read
    back by [get_cached_page] as that same instant, microseconds
    included. *)
Theorem cached_at_round_trip (now : datetime) (content : json) :
  valid now = true ->
  Py.get (NotionCache.cache_data content now) "cached_at" (JStr "2000-01-01")
    = Ok (JStr (isoformat now))
  /\ fromisoformat (JStr (isoformat now)) = Ok now.
Proof.
  intros H. split; [reflexivity|]. by apply fromisoformat_isoformat.
Qed.

Lemma cached_at_round_trip_witness :
  valid (mk_datetime 2024 2 29 23 59 59 999999) = true
  /\ Py.get (NotionCache.cache_data JNull (mk_datetime 2024 2 29 23 59 59 999999))
       "cached_at" (JStr "2000-01-01")
     = Ok (JStr (isoformat (mk_datetime 2024 2 29 23 59 59 999999)))
  /\ fromisoformat (JStr (isoformat (mk_datetime 2024 2 29 23 59 59 999999)))
     = Ok (mk_datetime 2024 2 29 23 59 59 999999).
Proof.
  split; [reflexivity|].
  apply (cached_at_round_trip (mk_datetime 2024 2 29 23 59 59 999999) JNull).
  reflexivity.
Defined.

(** ** Get-or-fetch beyond the claims *)

Section GetOrFetchMore.

Import NotionManager.

Variable self : NotionManager.t.

Lemma get_page_content_hit (c : NotionCache.t) (key : string) (v : json)
    (cached_at : datetime) (w : World) :
  files w !! NotionCache.get_cache_path c key
    = Some (Document (NotionCache.cache_data v cached_at)) ->
  valid cached_at = true ->
  to_us (clock w (ticks w)) - to_us cached_at < hours 24 ->
  truthy v = true ->
  NotionCache.get_page_content c key false w = (Ok v, tick w).
Proof.
  intros Hfile Hvalid Hfresh Hv. unfold NotionCache.get_page_content.
  cbn [negb]. unfold mbind, M_bind.
  rewrite (get_cached_page_entry c key v cached_at w Hfile Hvalid).
  apply Z.ltb_lt in Hfresh. rewrite Hfresh, Hv. reflexivity.
Qed.

Lemma get_page_hit (key : string) (v : json) (cached_at : datetime) (w : World) :
  files w !! NotionCache.get_cache_path (cache self) key
    = Some (Document (NotionCache.cache_data v cached_at)) ->
  valid cached_at = true ->
  to_us (clock w (ticks w)) - to_us cached_at < hours 24 ->
  truthy v = true ->
  get_page self key false w = (Ok v, tick w).
Proof.
  intros Hfile Hvalid Hfresh Hv.
  rewrite (get_page_after_lookup self key false w (tick w) v
             (get_page_content_hit _ _ _ _ _ Hfile Hvalid Hfresh Hv)).
  by rewrite Hv.
Qed.

Lemma get_block_children_hit (block_id : string) (v : json)
    (cached_at : datetime) (w : World) :
  files w !! NotionCache.get_cache_path (cache self) (block_id +:+ "_children")
    = Some (Document (NotionCache.cache_data v cached_at)) ->
  valid cached_at = true ->
  to_us (clock w (ticks w)) - to_us cached_at < hours 24 ->
  truthy v = true ->
  get_block_children self block_id false w = (Ok v, tick w).
Proof.
  intros Hfile Hvalid Hfresh Hv.
  rewrite (get_block_children_after_lookup self block_id false w (tick w) v
             (get_page_content_hit _ _ _ _ _ Hfile Hvalid Hfresh Hv)).
  by rewrite Hv.
Qed.

Lemma get_page_forced (key : string) (v : json) (w : World) :
  fst (fetch_page self key w) = Ok v ->
  get_page self key true w
  = (Ok v,
     write_file (NotionCache.get_cache_path (cache self) key)
       (Document (NotionCache.cache_data v (clock w (ticks w))))
       (tick (log_request (page_url self key) w))).
Proof.
  intros H.
  rewrite (get_page_after_lookup self key true w w JNull
             (get_page_content_forced _ _ _)).
  cbn [truthy andb]. pose proof (fetch_page_world self key w) as Hw.
  destruct (fetch_page self key w) as [[v'|e] w2]; cbn [fst snd] in *;
    [|done]. injection H as ->. by subst w2.
Qed.

Lemma get_block_children_forced (block_id : string) (v : json) (w : World) :
  fst (fetch_block_children self block_id w) = Ok v ->
  get_block_children self block_id true w
  = (Ok v,
     write_file (NotionCache.get_cache_path (cache self) (block_id +:+ "_children"))
       (Document (NotionCache.cache_data v (clock w (ticks w))))
       (tick (log_request (children_url self block_id) w))).
Proof.
  intros H.
  rewrite (get_block_children_after_lookup self block_id true w w JNull
             (get_page_content_forced _ _ _)).
  cbn [truthy andb]. pose proof (fetch_block_children_world self block_id w) as Hw.
  destruct (fetch_block_children self block_id w) as [[v'|e] w2]; cbn [fst snd] in *;
    [|done]. injection H as ->. by subst w2.
Qed.

End GetOrFetchMore.

(** X12. The hit path: when the cache file of the key holds a truthy
    value written less than 24 hours before the clock, [get_page] and
    [get_block_children] without forced refresh return that value,
    send no request and write no file. *)
Theorem fresh_entry_served_without_request (self : NotionManager.t) (key : string)
    (v : json) (cached_at : datetime) (w : World) :
  valid cached_at = true ->
  to_us (clock w (ticks w)) - to_us cached_at < hours 24 ->
  truthy v = true ->
  (files w !! NotionCache.get_cache_path (NotionManager.cache self) key
     = Some (Document (NotionCache.cache_data v cached_at)) ->
   NotionManager.get_page self key false w = (Ok v, tick w))
  /\ (files w !! NotionCache.get_cache_path (NotionManager.cache self)
                   (key +:+ "_children")
        = Some (Document (NotionCache.cache_data v cached_at)) ->
      NotionManager.get_block_children self key false w = (Ok v, tick w)).
Proof.
  intros Hvalid Hfresh Hv. split; intros Hfile.
  - by apply (get_page_hit self key v cached_at).
  - by apply (get_block_children_hit self key v cached_at).
Qed.

Lemma fresh_entry_served_without_request_witness :
  NotionManager.get_page Sample.manager "page" false Sample.fresh_page_world
  = (Ok (JDict [("id", JStr "old")]), tick Sample.fresh_page_world)
  /\ NotionManager.get_block_children Sample.manager "page" false
       cached_children_world
     = (Ok (JList [paragraph_block "kept"]), tick cached_children_world).
Proof.
  split.
  - apply (proj1 (fresh_entry_served_without_request Sample.manager "page"
                    (JDict [("id", JStr "old")]) (Sample.hourly 0)
                    Sample.fresh_page_world
                    ltac:(reflexivity) ltac:(vm_compute; reflexivity)
                    ltac:(reflexivity))).
    reflexivity.
  - apply (proj2 (fresh_entry_served_without_request Sample.manager "page"
                    (JList [paragraph_block "kept"]) (Sample.hourly 0)
                    cached_children_world
                    ltac:(reflexivity) ltac:(vm_compute; reflexivity)
                    ltac:(reflexivity))).
    reflexivity.
Defined.

(** X13. Fetch once, then hit: after a forced [get_page] whose fetch
    returned a truthy page, the next [get_page] for the key, made
    before 24 hours have passed on the clock, returns the same page
    and sends no request. *)
Theorem second_call_served_from_cache (self : NotionManager.t) (key : string)
    (v : json) (w : World) :
  fst (NotionManager.fetch_page self key w) = Ok v ->
  truthy v = true ->
  valid (clock w (ticks w)) = true ->
  to_us (clock w (S (ticks w))) - to_us (clock w (ticks w)) < hours 24 ->
  NotionManager.get_page self key false
    (snd (NotionManager.get_page self key true w))
  = (Ok v, tick (snd (NotionManager.get_page self key true w))).
Proof.
  intros Hfetch Hv Hvalid Hfresh.
  rewrite (get_page_forced self key v w Hfetch). cbn [snd].
  apply (get_page_hit self key v (clock w (ticks w))); [|done|done|done].
  apply lookup_insert_eq.
Qed.

Lemma second_call_served_from_cache_witness :
  NotionManager.get_page Sample.manager "page" false
    (snd (NotionManager.get_page Sample.manager "page" true Sample.fresh_page_world))
  = (Ok (JDict [("id", JStr "new")]),
     tick (snd (NotionManager.get_page Sample.manager "page" true
                  Sample.fresh_page_world))).
Proof.
  apply (second_call_served_from_cache Sample.manager "page"
           (JDict [("id", JStr "new")]) Sample.fresh_page_world).
  - reflexivity.
  - reflexivity.
  - reflexivity.
  - vm_compute. reflexivity.
Defined.

(** X14. The children of a block and the page named after them share
    one cache file: the children of [b] are stored under the key
    [b_children], so after a forced [get_block_children] for [b] a
    [get_page] for the id [b_children] returns that list of blocks and
    sends no request. *)
Theorem children_entry_answers_page_lookup (self : NotionManager.t) (b : string)
    (v : json) (w : World) :
  fst (NotionManager.fetch_block_children self b w) = Ok v ->
  truthy v = true ->
  valid (clock w (ticks w)) = true ->
  to_us (clock w (S (ticks w))) - to_us (clock w (ticks w)) < hours 24 ->
  NotionManager.get_page self (b +:+ "_children") false
    (snd (NotionManager.get_block_children self b true w))
  = (Ok v, tick (snd (NotionManager.get_block_children self b true w))).
Proof.
  intros Hfetch Hv Hvalid Hfresh.
  rewrite (get_block_children_forced self b v w Hfetch). cbn [snd].
  apply (get_page_hit self (b +:+ "_children") v (clock w (ticks w)));
    [|done|done|done].
  apply lookup_insert_eq.
Qed.

Lemma children_entry_answers_page_lookup_witness :
  NotionManager.get_page Sample.manager ("page" +:+ "_children") false
    (snd (NotionManager.get_block_children Sample.manager "page" true
            Sample.no_children_world))
  = (Ok (JList [paragraph_block "new"]),
     tick (snd (NotionManager.get_block_children Sample.manager "page" true
                  Sample.no_children_world))).
Proof.
  apply (children_entry_answers_page_lookup Sample.manager "page"
           (JList [paragraph_block "new"]) Sample.no_children_world).
  - reflexivity.
  - reflexivity.
  - reflexivity.
  - vm_compute. reflexivity.
Defined.

(** ** The footprint of a summary *)

Section Footprint.

Import NotionManager.

Variable self : NotionManager.t.

Lemma touched_refl (urls paths : list string) (w : World) : touched urls paths w w.
Proof.
  split; [|done]. exists []. split; [by rewrite app_nil_r|apply sublist_nil_l].
Qed.

Lemma touched_seq (urls1 urls2 paths1 paths2 : list string) (w1 w2 w3 : World) :
  touched urls1 paths1 w1 w2 -> touched urls2 paths2 w2 w3 ->
  touched (urls1 ++ urls2) (paths1 ++ paths2) w1 w3.
Proof.
  intros [(s1 & Hl1 & Hs1) Hf1] [(s2 & Hl2 & Hs2) Hf2]. split.
  - exists (s1 ++ s2). split; [by rewrite Hl2, Hl1, app_assoc|by apply sublist_app].
  - intros path Hp. rewrite Hf2, Hf1; [done| |];
      intros Hin; apply Hp, in_or_app; auto.
Qed.

Lemma get_page_content_touched (key : string) (force : bool) (w : World) :
  touched [] [] w (snd (NotionCache.get_page_content (cache self) key force w)).
Proof.
  destruct (get_page_content_files (cache self) key force w) as [Hf Hl].
  split; [|by rewrite Hf]. exists []. split; [by rewrite app_nil_r|constructor].
Qed.

Lemma get_page_touched (key : string) (force : bool) (w : World) :
  touched [page_url self key] [NotionCache.get_cache_path (cache self) key]
    w (snd (get_page self key force w)).
Proof.
  pose proof (get_page_content_touched key force w) as Hc.
  destruct (NotionCache.get_page_content (cache self) key force w)
    as [[cached|e] w1] eqn:E; cbn [snd] in Hc.
  - rewrite (get_page_after_lookup self key force w w1 cached E).
    apply (touched_seq [] _ [] _ w w1); [done|].
    destruct (truthy cached && negb force); [apply touched_refl|].
    pose proof (fetch_page_world self key w1) as Hw.
    destruct (fetch_page self key w1) as [[v|e] w2]; cbn [fst snd] in *; subst w2.
    + split; [by exists [page_url self key]|].
      intros path Hp. cbn [write_file tick log_request files].
      apply lookup_insert_ne. intros <-. apply Hp. by left.
    + split; [by exists [page_url self key]|done].
  - unfold get_page. unfold mbind at 1. unfold M_bind at 1. rewrite E. cbn [snd].
    apply (touched_seq [] _ [] _ w w1 w1); [done|apply touched_refl].
Qed.

Lemma get_block_children_touched (block_id : string) (force : bool) (w : World) :
  touched [children_url self block_id]
    [NotionCache.get_cache_path (cache self) (block_id +:+ "_children")]
    w (snd (get_block_children self block_id force w)).
Proof.
  pose proof (get_page_content_touched (block_id +:+ "_children") force w) as Hc.
  destruct (NotionCache.get_page_content (cache self) (block_id +:+ "_children") force w)
    as [[cached|e] w1] eqn:E; cbn [snd] in Hc.
  - rewrite (get_block_children_after_lookup self block_id force w w1 cached E).
    apply (touched_seq [] _ [] _ w w1); [done|].
    destruct (truthy cached && negb force); [apply touched_refl|].
    pose proof (fetch_block_children_world self block_id w1) as Hw.
    destruct (fetch_block_children self block_id w1) as [[v|e] w2];
      cbn [fst snd] in *; subst w2.
    + split; [by exists [children_url self block_id]|].
      intros path Hp. cbn [write_file tick log_request files].
      apply lookup_insert_ne. intros <-. apply Hp. by left.
    + split; [by exists [children_url self block_id]|done].
  - unfold get_block_children. unfold mbind at 1. unfold M_bind at 1. rewrite E.
    cbn [snd]. apply (touched_seq [] _ [] _ w w1 w1); [done|apply touched_refl].
Qed.

Lemma snd_lift_bind {A B} (r : result A) (k : A -> M B) (w : World) :
  snd ((lift r ≫= k) w) = match r with Ok a => snd (k a w) | Raise _ => w end.
Proof. unfold mbind, M_bind, lift. by destruct r. Qed.

Lemma get_page_content_simplified_touched (page_id : string) (max_blocks : Z)
    (w : World) :
  touched [page_url self page_id; children_url self page_id]
    [NotionCache.get_cache_path (cache self) page_id;
     NotionCache.get_cache_path (cache self) (page_id +:+ "_children")]
    w (snd (get_page_content_simplified self page_id max_blocks w)).
Proof.
  pose proof (get_page_touched page_id false w) as H1.
  unfold get_page_content_simplified. unfold mbind at 1. unfold M_bind at 1.
  destruct (get_page self page_id false w) as [[page|e] w1]; cbn [snd] in *.
  2:{ apply (touched_seq [_] [_] [_] [_] w w1 w1); [done|apply touched_refl]. }
  apply (touched_seq [_] [_] [_] [_] w w1); [done|].
  rewrite snd_lift_bind. destruct (Py.get page "properties" _); [|apply touched_refl].
  rewrite snd_lift_bind. destruct (dict_values _); [|apply touched_refl].
  rewrite snd_lift_bind. destruct (find_title _); [|apply touched_refl].
  pose proof (get_block_children_touched page_id false w1) as H2.
  unfold mbind at 1. unfold M_bind at 1.
  destruct (get_block_children self page_id false w1) as [[blocks|e] w2];
    cbn [snd] in *; [|done].
  rewrite snd_lift_bind. destruct (simplify_blocks _ _); [|done].
  rewrite snd_lift_bind. destruct (Py.get page "url" _); [|done].
  rewrite snd_lift_bind. destruct (Py.get page "last_edited_time" _); [|done].
  rewrite snd_lift_bind. by destruct (Py.get page "created_time" _).
Qed.

(** The footprint of [generate_page_summary], spelled out. *)
Lemma generate_page_summary_touched (page_id : string) (max_length : Z) (w : World) :
  (exists sent,
     http_log (snd (generate_page_summary self page_id max_length w))
       = http_log w ++ sent
     /\ sublist sent [page_url self page_id; children_url self page_id])
  /\ forall path,
       path <> NotionCache.get_cache_path (cache self) page_id ->
       path <> NotionCache.get_cache_path (cache self) (page_id +:+ "_children") ->
       files (snd (generate_page_summary self page_id max_length w)) !! path
       = files w !! path.
Proof.
  pose proof (get_page_content_simplified_touched page_id default_max_blocks w)
    as [Hlog Hfiles].
  unfold generate_page_summary, mbind, M_bind.
  destruct (get_page_content_simplified self page_id default_max_blocks w)
    as [[c|e] w1]; cbn [snd] in *.
  - split; [done|]. intros path H1 H2. apply Hfiles. intros [<-|[<-|[]]]; done.
  - split; [done|]. intros path H1 H2. apply Hfiles. intros [<-|[<-|[]]]; done.
Qed.

End Footprint.

(** X15. The footprint of a summary: [generate_page_summary] sends at
    most two requests, the one for the page and then the one for its
    children, and no other cache file than the two of that page is
    changed, whether it returns or raises. *)
Theorem summary_footprint (self : NotionManager.t) (page_id : string)
    (max_length : Z) (w : World) :
  (exists sent,
     http_log (snd (NotionManager.generate_page_summary self page_id max_length w))
       = http_log w ++ sent
     /\ sublist sent [NotionManager.page_url self page_id;
                      NotionManager.children_url self page_id])
  /\ forall path,
       path <> NotionCache.get_cache_path (NotionManager.cache self) page_id ->
       path <> NotionCache.get_cache_path (NotionManager.cache self)
                 (page_id +:+ "_children") ->
       files (snd (NotionManager.generate_page_summary self page_id max_length w))
         !! path
       = files w !! path.
Proof. apply generate_page_summary_touched. Qed.

(** ** The simplified page *)

Section SimplifiedPage.

Import NotionManager.

Lemma simplify_blocks_length (blocks : json) (max_blocks : Z)
    (recs : list simplified) :
  simplify_blocks blocks max_blocks = Ok recs ->
  (length recs <= Z.to_nat max_blocks)%nat.
Proof.
  unfold simplify_blocks. destruct (Py.iter blocks) as [items|]; [|done].
  cbn [bind_result]. rewrite simplify_loop_spec, Z.sub_0_r.
  destruct (map_result _ _) as [l|] eqn:El; [|done].
  cbn [bind_result app]. intros [= <-].
  apply map_result_Forall2 in El. rewrite <- (Forall2_length _ _ _ El).
  rewrite length_take. lia.
Qed.

Lemma run_lift_bind {A B} (r : result A) (k : A -> M B) (w w' : World) (b : B) :
  (lift r ≫= k) w = (Ok b, w') ->
  exists a, r = Ok a /\ k a w = (Ok b, w').
Proof. unfold mbind, M_bind, lift. destruct r as [a|e]; [by exists a|done]. Qed.

Lemma run_bind {A B} (m : M A) (k : A -> M B) (w w' : World) (b : B) :
  (m ≫= k) w = (Ok b, w') ->
  exists a w1, m w = (Ok a, w1) /\ k a w1 = (Ok b, w').
Proof.
  unfold mbind, M_bind. destruct (m w) as [[a|e] w1]; [by exists a, w1|done].
Qed.

End SimplifiedPage.

(** X16. What [get_page_content_simplified] returns, and from where:
    the result carries the id it was asked for; its blocks are the
    flattening of the children that [get_block_children] returned in
    the world that the [get_page] of this call left behind, never
    more than [max_blocks] of them; its url is the ['url'] of the
    page that this [get_page] returned; and the world it leaves is
    the one [get_block_children] left. *)
Theorem simplified_page_id_and_cap (self : NotionManager.t) (page_id : string)
    (max_blocks : Z) (w w' : World) (c : NotionManager.page_content) :
  NotionManager.get_page_content_simplified self page_id max_blocks w = (Ok c, w') ->
  NotionManager.id c = page_id
  /\ (length (NotionManager.blocks c) <= Z.to_nat max_blocks)%nat
  /\ exists (page children : json) (w1 : World),
       NotionManager.get_page self page_id false w = (Ok page, w1)
       /\ NotionManager.get_block_children self page_id false w1 = (Ok children, w')
       /\ simplify_blocks children max_blocks = Ok (NotionManager.blocks c)
       /\ Py.get page "url" (JStr "") = Ok (NotionManager.url c).
Proof.
  unfold NotionManager.get_page_content_simplified. intros H.
  apply run_bind in H as (page & w1 & Hpage & H).
  apply run_lift_bind in H as (properties & _ & H).
  apply run_lift_bind in H as (props & _ & H).
  apply run_lift_bind in H as (title & _ & H).
  apply run_bind in H as (children & w2 & Hchildren & H).
  apply run_lift_bind in H as (recs & Hrecs & H).
  apply run_lift_bind in H as (url & Hurl & H).
  apply run_lift_bind in H as (last_edited & _ & H).
  apply run_lift_bind in H as (created & _ & H).
  injection H as <- <-. cbn [NotionManager.id NotionManager.blocks NotionManager.url].
  split; [done|]. split; [by apply (simplify_blocks_length children)|].
  by exists page, children, w1.
Qed.

Lemma simplified_page_id_and_cap_witness :
  NotionManager.id
    (NotionManager.mk_page_content "page" "" (JStr "") (JStr "") (JStr "")
       [para "kept"]) = "page"
  /\ (length (NotionManager.blocks
                (NotionManager.mk_page_content "page" "" (JStr "") (JStr "") (JStr "")
                   [para "kept"])) <= Z.to_nat 1)%nat
  /\ exists (page children : json) (w1 : World),
       NotionManager.get_page Sample.manager "page" false cached_page_and_children
         = (Ok page, w1)
       /\ NotionManager.get_block_children Sample.manager "page" false w1
          = (Ok children, tick (tick cached_page_and_children))
       /\ simplify_blocks children 1
          = Ok (NotionManager.blocks
                  (NotionManager.mk_page_content "page" "" (JStr "") (JStr "")
                     (JStr "") [para "kept"]))
       /\ Py.get page "url" (JStr "")
          = Ok (NotionManager.url
                  (NotionManager.mk_page_content "page" "" (JStr "") (JStr "")
                     (JStr "") [para "kept"])).
Proof.
  apply (simplified_page_id_and_cap Sample.manager "page" 1
           cached_page_and_children (tick (tick cached_page_and_children))).
  vm_compute. reflexivity.
Defined.

(** ** Recently updated pages *)

Section Recent.

Import RecentPages.

Lemma ascii_compare_N (a b : ascii) :
  Ascii.compare a b = N.compare (N_of_ascii a) (N_of_ascii b).
Proof. reflexivity. Qed.

Lemma compare_not_gt_trans (a b c : string) :
  String.compare a b <> Gt -> String.compare b c <> Gt ->
  String.compare a c <> Gt.
Proof.
  revert b c. induction a as [|x a IH]; intros [|y b] [|z c]; cbn [String.compare];
    try done.
  rewrite !ascii_compare_N.
  destruct (N.compare_spec (N_of_ascii x) (N_of_ascii y)) as [Exy|Exy|Exy];
    destruct (N.compare_spec (N_of_ascii y) (N_of_ascii z)) as [Eyz|Eyz|Eyz];
    try done; intros H1 H2.
  - rewrite Exy, Eyz, N.compare_refl. by apply (IH b).
  - rewrite Exy. by apply N.compare_lt_iff in Eyz as ->.
  - rewrite <- Eyz. by apply N.compare_lt_iff in Exy as ->.
  - assert (N_of_ascii x < N_of_ascii z)%N as Hlt by lia.
    by apply N.compare_lt_iff in Hlt as ->.
Qed.

Lemma str_ge_trans (a b c : string) :
  str_ge a b = true -> str_ge b c = true -> str_ge a c = true.
Proof.
  unfold str_ge, String.leb. intros H1 H2.
  pose proof (compare_not_gt_trans c b a) as H.
  destruct (String.compare c b); destruct (String.compare b a); try done;
    destruct (String.compare c a); try done; exfalso; by apply H.
Qed.

Lemma str_lt_ge (a b : string) : str_lt a b = true -> str_ge b a = true.
Proof.
  unfold str_lt, str_ge, String.ltb, String.leb.
  by destruct (String.compare a b).
Qed.

Lemma str_not_lt_ge (a b : string) : str_lt a b = false -> str_ge a b = true.
Proof.
  unfold str_lt, str_ge, String.ltb, String.leb.
  rewrite (String.compare_antisym b a). by destruct (String.compare a b).
Qed.

Lemma str_lt_irrefl (a : string) : str_lt a a = false.
Proof.
  unfold str_lt, String.ltb.
  pose proof (String.compare_antisym a a) as H.
  by destruct (String.compare a a).
Qed.

Lemma insert_desc_perm (x : recent_page) (l : list recent_page) :
  Permutation (insert_desc x l) (x :: l).
Proof.
  induction l as [|y l IH]; cbn [insert_desc]; [done|].
  destruct (str_lt _ _); [|done]. rewrite IH. apply perm_swap.
Qed.

Lemma sort_desc_perm (l : list recent_page) : Permutation (sort_desc l) l.
Proof.
  induction l as [|x l IH]; [done|]. cbn [sort_desc fold_right].
  fold (sort_desc l). by rewrite insert_desc_perm, IH.
Qed.

Lemma insert_desc_sorted (x : recent_page) (l : list recent_page) :
  StronglySorted newest_first l -> StronglySorted newest_first (insert_desc x l).
Proof.
  induction 1 as [|y l Hl IH Hy]; cbn [insert_desc].
  - by repeat constructor.
  - destruct (str_lt (last_edited x) (last_edited y)) eqn:E.
    + constructor; [done|].
      rewrite (insert_desc_perm x l). constructor; [|done]. by apply str_lt_ge.
    + apply str_not_lt_ge in E. constructor; [by constructor|].
      constructor; [done|].
      eapply Forall_impl; [exact Hy|]. intros z Hz. by eapply str_ge_trans.
Qed.

Lemma sort_desc_sorted (l : list recent_page) :
  StronglySorted newest_first (sort_desc l).
Proof.
  induction l as [|x l IH]; [constructor|]. by apply insert_desc_sorted.
Qed.

Lemma insert_desc_stable (s : string) (x : recent_page) (l : list recent_page) :
  List.filter (fun e => String.eqb (last_edited e) s) (insert_desc x l)
  = List.filter (fun e => String.eqb (last_edited e) s) (x :: l).
Proof.
  induction l as [|y l IH]; cbn [insert_desc]; [done|].
  destruct (str_lt (last_edited x) (last_edited y)) eqn:E; [|done].
  cbn [List.filter] in *. rewrite IH.
  destruct (String.eqb (last_edited y) s) eqn:Ey; [|done].
  destruct (String.eqb (last_edited x) s) eqn:Ex; [|done].
  apply String.eqb_eq in Ex, Ey. rewrite Ex, Ey, str_lt_irrefl in E. done.
Qed.

Lemma sort_desc_stable (s : string) (l : list recent_page) :
  List.filter (fun e => String.eqb (last_edited e) s) (sort_desc l)
  = List.filter (fun e => String.eqb (last_edited e) s) l.
Proof.
  induction l as [|x l IH]; [done|]. cbn [sort_desc fold_right].
  fold (sort_desc l). rewrite insert_desc_stable. cbn [List.filter].
  by rewrite IH.
Qed.

Lemma recent_entry_spec (cutoff_date : string) (page : json)
    (entry : option recent_page) :
  recent_entry cutoff_date page = Ok entry ->
  match entry with
  | Some e =>
      qualifies cutoff_date page = true
      /\ id e = page_id page /\ last_edited e = page_stamp page
  | None => qualifies cutoff_date page = false
  end.
Proof.
  unfold recent_entry, qualifies, page_stamp, page_id.
  destruct page as [| | | | | |items]; try done. cbn [Py.get bind_result].
  destruct (match assoc "last_edited_time" items with
            | Some x => x | None => JStr "" end) as [| | | |stamp| |]; try done.
  destruct (str_ge stamp cutoff_date) eqn:E; [|by intros [= <-]].
  destruct (NotionManager.dict_values _); [|done]. cbn [bind_result].
  destruct (NotionManager.find_title _); [|done]. cbn [bind_result].
  by intros [= <-].
Qed.

Lemma recent_loop_spec (cutoff_date : string) (rest : list json)
    (acc l : list recent_page) :
  recent_loop rest cutoff_date acc = Ok l ->
  exists kept,
    l = acc ++ kept
    /\ List.map (fun e => (id e, last_edited e)) kept
       = List.map (fun p => (page_id p, page_stamp p))
           (List.filter (qualifies cutoff_date) rest).
Proof.
  revert acc. induction rest as [|page rest IH]; intros acc; cbn [recent_loop].
  - intros [= <-]. exists []. by rewrite app_nil_r.
  - destruct (recent_entry cutoff_date page) as [entry|] eqn:E; [|done].
    cbn [bind_result]. apply recent_entry_spec in E. intros H.
    apply IH in H as (kept & -> & Hkept). cbn [List.filter].
    destruct entry as [e|].
    + destruct E as (-> & Hid & Hstamp). exists (e :: kept).
      split; [by rewrite <- app_assoc|]. cbn [List.map]. by rewrite Hid, Hstamp, Hkept.
    + rewrite E. by exists kept.
Qed.

(** The result is the stable sort of the entries of the qualifying
    pages. *)
Lemma recent_pages_from_spec (pages : list json) (cutoff_date : string)
    (l : list recent_page) :
  recent_pages_from (JList pages) cutoff_date = Ok l ->
  exists kept,
    l = sort_desc kept
    /\ List.map (fun e => (id e, last_edited e)) kept
       = List.map (fun p => (page_id p, page_stamp p))
           (List.filter (qualifies cutoff_date) pages).
Proof.
  unfold recent_pages_from. cbn [Py.iter bind_result].
  destruct (recent_loop pages cutoff_date []) as [kept|] eqn:E; [|done].
  cbn [bind_result]. intros [= <-].
  apply recent_loop_spec in E as (kept' & -> & H). by exists kept'.
Qed.

End Recent.

Section RecentMaps.

Import RecentPages.

Lemma paired_maps_stamps (kept : list recent_page) (pages : list json) :
  List.map (fun e => (id e, last_edited e)) kept
  = List.map (fun p => (page_id p, page_stamp p)) pages ->
  List.map last_edited kept = List.map page_stamp pages.
Proof.
  intros H. apply (f_equal (List.map snd)) in H.
  by rewrite !List.map_map in H.
Qed.

Lemma paired_maps_filter (s : string) (kept : list recent_page) (pages : list json) :
  List.map (fun e => (id e, last_edited e)) kept
  = List.map (fun p => (page_id p, page_stamp p)) pages ->
  List.map id (List.filter (fun e => String.eqb (last_edited e) s) kept)
  = List.map page_id (List.filter (fun p => String.eqb (page_stamp p) s) pages).
Proof.
  revert pages. induction kept as [|e kept IH]; intros [|p pages]; try done.
  cbn [List.map List.filter]. intros [= Hid Hstamp H]. rewrite Hstamp.
  destruct (String.eqb (page_stamp p) s); cbn [List.map]; rewrite (IH _ H);
    by rewrite ?Hid.
Qed.

Lemma filter_qualifies_stamps (cutoff_date : string) (pages : list json) :
  Forall (fun stamp => str_ge stamp cutoff_date = true)
    (List.map page_stamp (List.filter (qualifies cutoff_date) pages)).
Proof.
  induction pages as [|p pages IH]; cbn [List.filter List.map]; [constructor|].
  destruct (qualifies cutoff_date p) eqn:E; [|done]. by constructor.
Qed.

End RecentMaps.

(** X17. The recent pages come newest first and none is older than the
    cutoff: every entry's timestamp is at least that of every later
    entry and at least the cutoff, as texts. *)
Theorem recent_pages_newest_first (pages : list json) (cutoff_date : string)
    (l : list RecentPages.recent_page) :
  RecentPages.recent_pages_from (JList pages) cutoff_date = Ok l ->
  StronglySorted RecentPages.newest_first l
  /\ Forall (fun e => RecentPages.str_ge (RecentPages.last_edited e) cutoff_date = true) l.
Proof.
  intros H. apply recent_pages_from_spec in H as (kept & -> & Hkept).
  split; [apply sort_desc_sorted|].
  rewrite (sort_desc_perm kept).
  apply paired_maps_stamps in Hkept.
  pose proof (filter_qualifies_stamps cutoff_date pages) as Hall.
  rewrite <- Hkept in Hall. by apply Forall_map in Hall.
Qed.

Lemma recent_pages_newest_first_witness :
  RecentPages.recent_pages_from (JList search_result) "2024-05-10T00:00:00"
  = Ok [RecentPages.mk_recent_page (JStr "c") "" (JStr "") "2024-05-14T09:30:00.000Z";
        RecentPages.mk_recent_page (JStr "a") "" (JStr "") "2024-05-12T08:00:00.000Z";
        RecentPages.mk_recent_page (JStr "d") "" (JStr "") "2024-05-12T08:00:00.000Z"]
  /\ StronglySorted RecentPages.newest_first
       [RecentPages.mk_recent_page (JStr "c") "" (JStr "") "2024-05-14T09:30:00.000Z";
        RecentPages.mk_recent_page (JStr "a") "" (JStr "") "2024-05-12T08:00:00.000Z";
        RecentPages.mk_recent_page (JStr "d") "" (JStr "") "2024-05-12T08:00:00.000Z"]
  /\ Forall (fun e => RecentPages.str_ge (RecentPages.last_edited e)
                        "2024-05-10T00:00:00" = true)
       [RecentPages.mk_recent_page (JStr "c") "" (JStr "") "2024-05-14T09:30:00.000Z";
        RecentPages.mk_recent_page (JStr "a") "" (JStr "") "2024-05-12T08:00:00.000Z";
        RecentPages.mk_recent_page (JStr "d") "" (JStr "") "2024-05-12T08:00:00.000Z"].
Proof.
  assert (RecentPages.recent_pages_from (JList search_result) "2024-05-10T00:00:00"
  = Ok [RecentPages.mk_recent_page (JStr "c") "" (JStr "") "2024-05-14T09:30:00.000Z";
        RecentPages.mk_recent_page (JStr "a") "" (JStr "") "2024-05-12T08:00:00.000Z";
        RecentPages.mk_recent_page (JStr "d") "" (JStr "") "2024-05-12T08:00:00.000Z"])
    as H by (vm_compute; reflexivity).
  split; [exact H|].
  exact (recent_pages_newest_first search_result "2024-05-10T00:00:00" _ H).
Defined.

(** X18. No page is lost and none is invented: the (id, timestamp)
    pairs of the returned entries are, up to order, those of the
    pages whose timestamp is at least the cutoff; a page without
    [last_edited_time] counts with the empty timestamp. *)
Theorem recent_pages_are_the_qualifying_pages (pages : list json)
    (cutoff_date : string) (l : list RecentPages.recent_page) :
  RecentPages.recent_pages_from (JList pages) cutoff_date = Ok l ->
  Permutation
    (List.map (fun e => (RecentPages.id e, RecentPages.last_edited e)) l)
    (List.map (fun p => (RecentPages.page_id p, RecentPages.page_stamp p))
       (List.filter (RecentPages.qualifies cutoff_date) pages)).
Proof.
  intros H. apply recent_pages_from_spec in H as (kept & -> & Hkept).
  rewrite <- Hkept. apply Permutation_map, sort_desc_perm.
Qed.

Lemma recent_pages_are_the_qualifying_pages_witness :
  Permutation
    (List.map (fun e => (RecentPages.id e, RecentPages.last_edited e))
       [RecentPages.mk_recent_page (JStr "c") "" (JStr "") "2024-05-14T09:30:00.000Z";
        RecentPages.mk_recent_page (JStr "a") "" (JStr "") "2024-05-12T08:00:00.000Z";
        RecentPages.mk_recent_page (JStr "d") "" (JStr "") "2024-05-12T08:00:00.000Z"])
    (List.map (fun p => (RecentPages.page_id p, RecentPages.page_stamp p))
       (List.filter (RecentPages.qualifies "2024-05-10T00:00:00") search_result)).
Proof.
  apply (recent_pages_are_the_qualifying_pages search_result "2024-05-10T00:00:00").
  vm_compute. reflexivity.
Defined.

(** X19. The sort is stable: the entries that share a timestamp come
    in the order in which their pages were returned by the search. *)
Theorem recent_pages_ties_in_page_order (pages : list json) (cutoff_date : string)
    (l : list RecentPages.recent_page) (stamp : string) :
  RecentPages.recent_pages_from (JList pages) cutoff_date = Ok l ->
  List.map RecentPages.id
    (List.filter (fun e => String.eqb (RecentPages.last_edited e) stamp) l)
  = List.map RecentPages.page_id
      (List.filter (fun p => String.eqb (RecentPages.page_stamp p) stamp)
         (List.filter (RecentPages.qualifies cutoff_date) pages)).
Proof.
  intros H. apply recent_pages_from_spec in H as (kept & -> & Hkept).
  rewrite sort_desc_stable. by apply paired_maps_filter.
Qed.

Lemma recent_pages_ties_in_page_order_witness :
  List.map RecentPages.id
    (List.filter
       (fun e => String.eqb (RecentPages.last_edited e) "2024-05-12T08:00:00.000Z")
       [RecentPages.mk_recent_page (JStr "c") "" (JStr "") "2024-05-14T09:30:00.000Z";
        RecentPages.mk_recent_page (JStr "a") "" (JStr "") "2024-05-12T08:00:00.000Z";
        RecentPages.mk_recent_page (JStr "d") "" (JStr "") "2024-05-12T08:00:00.000Z"])
  = List.map RecentPages.page_id
      (List.filter
         (fun p => String.eqb (RecentPages.page_stamp p) "2024-05-12T08:00:00.000Z")
         (List.filter (RecentPages.qualifies "2024-05-10T00:00:00") search_result)).
Proof.
  apply (recent_pages_ties_in_page_order search_result "2024-05-10T00:00:00").
  vm_compute. reflexivity.
Defined.

Section RecentErrors.

Import RecentPages.

Lemma recent_loop_app (cutoff_date : string) (pre rest : list json)
    (acc : list recent_page) :
  recent_loop (pre ++ rest) cutoff_date acc
  = bind_result (recent_loop pre cutoff_date acc)
      (fun acc' => recent_loop rest cutoff_date acc').
Proof.
  revert acc. induction pre as [|page pre IH]; intros acc; [done|].
  cbn [app recent_loop]. destruct (recent_entry cutoff_date page); [|done].
  cbn [bind_result]. apply IH.
Qed.

End RecentErrors.

(** X20. One page whose [last_edited_time] is present but is not text
    (a JSON null, say) makes the whole listing raise [TypeError]: the
    comparison with the cutoff fails, and the pages accepted before it
    are not returned. *)
Theorem recent_pages_type_error (pre post : list json) (page : list (string * json))
    (v : json) (cutoff_date : string) (kept : list RecentPages.recent_page) :
  RecentPages.recent_loop pre cutoff_date [] = Ok kept ->
  assoc "last_edited_time" page = Some v ->
  (forall stamp, v <> JStr stamp) ->
  RecentPages.recent_pages_from (JList (pre ++ JDict page :: post)) cutoff_date
  = Raise TypeError.
Proof.
  intros Hpre Hv Hstr. unfold RecentPages.recent_pages_from.
  cbn [Py.iter bind_result]. rewrite recent_loop_app, Hpre.
  cbn [bind_result RecentPages.recent_loop]. unfold RecentPages.recent_entry.
  cbn [Py.get bind_result]. rewrite Hv.
  destruct v; try done. by destruct (Hstr s).
Qed.

Lemma recent_pages_type_error_witness :
  RecentPages.recent_pages_from
    (JList ([stamped_page "a" "2024-05-12T08:00:00.000Z"]
            ++ JDict [("id", JStr "b"); ("last_edited_time", JNull)] :: []))
    "2024-05-10T00:00:00"
  = Raise TypeError.
Proof.
  apply (recent_pages_type_error [stamped_page "a" "2024-05-12T08:00:00.000Z"] []
           [("id", JStr "b"); ("last_edited_time", JNull)] JNull
           "2024-05-10T00:00:00"
           [RecentPages.mk_recent_page (JStr "a") "" (JStr "")
              "2024-05-12T08:00:00.000Z"]).
  - reflexivity.
  - reflexivity.
  - discriminate.
Defined.

(** ** More on the cache and on get-or-fetch *)

(** X21. The last write wins: after two writes under one key a read
    made less than 24 hours after the second returns the second
    value. *)
Theorem cache_last_write_wins (self : NotionCache.t) (k : string) (v1 v2 : json)
    (w : World) :
  valid (clock w (S (ticks w))) = true ->
  to_us (clock w (S (S (ticks w)))) - to_us (clock w (S (ticks w))) < hours 24 ->
  fst ((NotionCache.update_cache self k v1
          ≫= fun _ => NotionCache.update_cache self k v2
          ≫= fun _ => NotionCache.get_cached_page self k) w)
  = Ok v2.
Proof.
  intros Hvalid Hfresh. unfold mbind, M_bind. rewrite !update_cache_run.
  cbn [tick write_file clock ticks].
  erewrite get_cached_page_entry; [|by apply lookup_insert_eq|done].
  cbn [tick write_file clock ticks fst].
  apply Z.ltb_lt in Hfresh. by rewrite Hfresh.
Qed.

Lemma cache_last_write_wins_witness :
  fst ((NotionCache.update_cache NotionCache.default "page" (JStr "first")
          ≫= fun _ => NotionCache.update_cache NotionCache.default "page" (JStr "second")
          ≫= fun _ => NotionCache.get_cached_page NotionCache.default "page")
         Sample.empty_world)
  = Ok (JStr "second").
Proof.
  apply (cache_last_write_wins NotionCache.default "page" (JStr "first")
           (JStr "second") Sample.empty_world).
  - reflexivity.
  - vm_compute. reflexivity.
Defined.

(** X22. A failed refresh loses nothing: when a forced [get_page]
    raises because its fetch raised, a truthy entry that was fresh
    before is still what the next unforced [get_page] returns, without
    a request. *)
Theorem failed_refresh_keeps_entry (self : NotionManager.t) (key : string)
    (v : json) (cached_at : datetime) (e : exn) (w : World) :
  files w !! NotionCache.get_cache_path (NotionManager.cache self) key
    = Some (Document (NotionCache.cache_data v cached_at)) ->
  valid cached_at = true ->
  to_us (clock w (ticks w)) - to_us cached_at < hours 24 ->
  truthy v = true ->
  fst (NotionManager.fetch_page self key w) = Raise e ->
  fst (NotionManager.get_page self key true w) = Raise e
  /\ NotionManager.get_page self key false
       (snd (NotionManager.get_page self key true w))
     = (Ok v, tick (snd (NotionManager.get_page self key true w))).
Proof.
  intros Hfile Hvalid Hfresh Hv Hfetch.
  rewrite (get_page_after_lookup self key true w w JNull
             (get_page_content_forced _ _ _)).
  cbn [truthy andb]. pose proof (fetch_page_world self key w) as Hw.
  destruct (NotionManager.fetch_page self key w) as [[v'|e'] w2];
    cbn [fst snd] in *; [done|]. injection Hfetch as ->. subst w2.
  split; [done|]. by apply (get_page_hit self key v cached_at).
Qed.

Lemma failed_refresh_keeps_entry_witness :
  fst (NotionManager.get_page Sample.manager "page_children" true
         cached_children_world)
  = Raise (RequestException "connection refused")
  /\ NotionManager.get_page Sample.manager "page_children" false
       (snd (NotionManager.get_page Sample.manager "page_children" true
               cached_children_world))
     = (Ok (JList [paragraph_block "kept"]),
        tick (snd (NotionManager.get_page Sample.manager "page_children" true
                     cached_children_world))).
Proof.
  apply (failed_refresh_keeps_entry Sample.manager "page_children"
           (JList [paragraph_block "kept"]) (Sample.hourly 0)
           (RequestException "connection refused") cached_children_world).
  - reflexivity.
  - reflexivity.
  - vm_compute. reflexivity.
  - reflexivity.
  - reflexivity.
Defined.

(** ** Titles and keywords *)

Section TitlesAndKeywords.

Lemma lower_app (a b : string) : Str.lower (a +:+ b) = Str.lower a +:+ Str.lower b.
Proof.
  induction a as [|c a IH]; [done|]. rewrite app_cons. cbn [Str.lower].
  by rewrite IH.
Qed.

Lemma find_title_skips (pre rest : list json) :
  Forall (fun p => exists items,
            p = JDict items
            /\ eq_str (match assoc "type" items with Some t => t | None => JNull end)
                 "title" = false) pre ->
  NotionManager.find_title (pre ++ rest) = NotionManager.find_title rest.
Proof.
  induction 1 as [|p pre (items & -> & Hkind) _ IH]; [done|].
  cbn [app NotionManager.find_title Py.get bind_result]. by rewrite Hkind.
Qed.

End TitlesAndKeywords.

(** X23. The title is that of the first property of type ["title"]:
    properties of other types in front of it are passed over, whatever
    follows it is not looked at, and without such a property the title
    is empty. *)
Theorem title_of_first_title_property (pre post : list json)
    (prop : list (string * json)) :
  Forall (fun p => exists items,
            p = JDict items
            /\ eq_str (match assoc "type" items with Some t => t | None => JNull end)
                 "title" = false) pre ->
  eq_str (match assoc "type" prop with Some t => t | None => JNull end) "title" = true ->
  NotionManager.find_title (pre ++ JDict prop :: post)
  = extract_plain_text
      (match assoc "title" prop with Some t => t | None => JList [] end)
  /\ NotionManager.find_title pre = Ok "".
Proof.
  intros Hpre Hprop. split.
  - rewrite (find_title_skips pre _ Hpre).
    cbn [NotionManager.find_title Py.get bind_result]. by rewrite Hprop.
  - rewrite <- (app_nil_r pre). by rewrite (find_title_skips pre [] Hpre).
Qed.

Lemma title_of_first_title_property_witness :
  NotionManager.find_title
    ([JDict [("type", JStr "multi_select")]]
     ++ JDict [("type", JStr "title");
               ("title", JList [JDict [("plain_text", JStr "Roadmap")]])]
     :: [JNull])
  = extract_plain_text
      (match assoc "title"
               [("type", JStr "title");
                ("title", JList [JDict [("plain_text", JStr "Roadmap")]])]
       with Some t => t | None => JList [] end)
  /\ NotionManager.find_title [JDict [("type", JStr "multi_select")]] = Ok "".
Proof.
  apply (title_of_first_title_property
           [JDict [("type", JStr "multi_select")]] [JNull]
           [("type", JStr "title");
            ("title", JList [JDict [("plain_text", JStr "Roadmap")]])]).
  - constructor; [|constructor]. by eexists.
  - reflexivity.
Defined.

(** X24. The keyword test looks for the keyword as a piece of text,
    in any letter case and anywhere in the paragraph, inside a longer
    word as well: a paragraph [a ++ k' ++ b] passes whenever the
    lower-case form of [k'] is one of the six keywords. *)
Theorem keyword_anywhere_in_any_case (a b k' : string) :
  In (Str.lower k') Summary.keywords ->
  Summary.has_keyword (a +:+ k' +:+ b) = true.
Proof.
  intros Hk. unfold Summary.has_keyword. apply existsb_exists.
  exists (Str.lower k'). split; [done|].
  rewrite !lower_app. apply contains_intro.
Qed.

Lemma keyword_anywhere_in_any_case_witness :
  In (Str.lower "KEY") Summary.keywords
  /\ Summary.has_keyword ("A mon" +:+ "KEY" +:+ " wrench") = true.
Proof.
  assert (In (Str.lower "KEY") Summary.keywords) as H by (vm_compute; tauto).
  split; [exact H|].
  exact (keyword_anywhere_in_any_case "A mon" " wrench" "KEY" H).
Defined.
